(** * Pattern-Go-UT-Helper: the request handlers of [app.py]

    A shallow embedding of the module-level settings and of the handlers
    [upload_pattern], [upload_source] and [generate_unit_tests] of the
    service, together with the Python primitives they rely on: [str.strip], [str.endswith],
    truthiness and [or], subscripting and [dict.get] on decoded JSON,
    [json.dumps] and slicing.  Exceptions are explicit; the single
    outbound HTTPS call of [generate_unit_tests] is recorded in a log. *)

From Stdlib Require Import List String Ascii ZArith NArith Bool Lia.
From ExtLib Require Import Structures.Monad Structures.MonadExc.
Import ListNotations.
Import MonadNotation.
Local Open Scope monad_scope.

(** ** Python strings *)

(** A Python [str] is a sequence of Unicode code points. *)
Definition char := N.
Definition pystr := list char.

(** String literals of the source are ASCII; [lit] reads one. *)
Fixpoint lit (s : string) : pystr :=
  match s with
  | EmptyString => []
  | String a s' => N_of_ascii a :: lit s'
  end.

Fixpoint pystr_eqb (s t : pystr) : bool :=
  match s, t with
  | [], [] => true
  | a :: s', b :: t' => N.eqb a b && pystr_eqb s' t'
  | _, _ => false
  end.

(** [str.isspace] on one code point: the table of CPython's
    [_PyUnicode_IsWhitespace]. *)
Definition isspace (c : char) : bool :=
  ((9 <=? c) && (c <=? 13)            (* \t \n \v \f \r *)
   || (28 <=? c) && (c <=? 32)        (* FS GS RS US and the space *)
   || (c =? 133) || (c =? 160)        (* NEL, no-break space *)
   || (c =? 5760)                     (* U+1680 *)
   || (8192 <=? c) && (c <=? 8202)    (* U+2000 .. U+200A *)
   || (c =? 8232) || (c =? 8233)      (* U+2028, U+2029 *)
   || (c =? 8239) || (c =? 8287)      (* U+202F, U+205F *)
   || (c =? 12288))%N.                (* U+3000 *)

(** [s.lstrip()], [s.rstrip()], [s.strip()] with no argument. *)
Fixpoint lstrip (s : pystr) : pystr :=
  match s with
  | c :: s' => if isspace c then lstrip s' else s
  | [] => []
  end.

Definition rstrip (s : pystr) : pystr := rev (lstrip (rev s)).

Definition strip (s : pystr) : pystr := rstrip (lstrip s).

(** [s.endswith(suffix)] *)
Fixpoint startswith (s prefix : pystr) {struct prefix} : bool :=
  match prefix, s with
  | [], _ => true
  | p :: prefix', c :: s' => N.eqb c p && startswith s' prefix'
  | _ :: _, [] => false
  end.

Definition endswith (s suffix : pystr) : bool :=
  startswith (rev s) (rev suffix).

(** Truthiness of a [str]: [not s] holds exactly for the empty string. *)
Definition str_truthy (s : pystr) : bool :=
  match s with [] => false | _ :: _ => true end.

(** A string made of whitespace only (the empty string included). *)
Definition blank (s : pystr) : bool := forallb isspace s.

(** [t] occurs in [s] as a contiguous substring. *)
Definition Contains (s t : pystr) : Prop :=
  exists pre post, s = pre ++ t ++ post.

(** ** Decoded JSON values *)

(** A Python [float] is observed by this program through [bool()] and
    through the text [json.dumps] writes for it, nothing else. *)
Record pyfloat := { float_truthy : bool; float_dumps : pystr }.

(** What [r.json()] returns, and what [HTTPException.detail] may hold.
    A [dict] keeps insertion order, which [json.dumps] follows. *)
#[local] Set Warnings "-register-all".
Inductive json :=
| JNull
| JBool (b : bool)
| JInt (n : Z)
| JFloat (f : pyfloat)
| JStr (s : pystr)
| JList (l : list json)
| JDict (d : list (pystr * json)).

(** [bool(v)] *)
Definition truthy (v : json) : bool :=
  match v with
  | JNull => false
  | JBool b => b
  | JInt n => negb (n =? 0)%Z
  | JFloat f => float_truthy f
  | JStr s => str_truthy s
  | JList [] => false
  | JList (_ :: _) => true
  | JDict [] => false
  | JDict (_ :: _) => true
  end.

(** [a or b] *)
Definition py_or (a b : json) : json := if truthy a then a else b.

Fixpoint lookup (d : list (pystr * json)) (k : pystr) : option json :=
  match d with
  | [] => None
  | (k', v) :: d' => if pystr_eqb k' k then Some v else lookup d' k
  end.

(** ** Exceptions *)

Inductive httpx_exn := TimeoutException | NetworkError.

(** [ResponseJSONError] stands for whatever [r.json()] raises on a body
    it cannot decode: [json.JSONDecodeError] on malformed JSON,
    [UnicodeDecodeError] on bytes that are not UTF-8, [ValueError] on an
    integer beyond the digit limit.  The handler catches none of them
    and never tells them apart. *)
Inductive exn :=
| HTTPException (status_code : Z) (detail : json)
| AttributeError
| KeyError
| IndexError
| TypeError
| ResponseJSONError
| HTTPXError (e : httpx_exn).

(** A computation that returns or raises. *)
Abbreviation result := (sum exn).

(** [v.get(k)]: only a [dict] has the method. *)
Definition py_get (v : json) (k : pystr) : result json :=
  match v with
  | JDict d => inr (match lookup d k with Some x => x | None => JNull end)
  | _ => inl AttributeError
  end.

(** [v[k]] for a [str] key [k]. *)
Definition getitem_key (v : json) (k : pystr) : result json :=
  match v with
  | JDict d => match lookup d k with Some x => inr x | None => inl KeyError end
  | _ => inl TypeError
  end.

(** [v[i]] for an [int] index [i >= 0].  The keys of a decoded JSON
    object are strings, so an integer is never among them. *)
Definition getitem_index (v : json) (i : nat) : result json :=
  match v with
  | JList l => match nth_error l i with Some x => inr x | None => inl IndexError end
  | JStr s => match nth_error s i with Some c => inr (JStr [c]) | None => inl IndexError end
  | JDict _ => inl KeyError
  | _ => inl TypeError
  end.

(** [v.strip()]: only a [str] has the method. *)
Definition py_strip (v : json) : result pystr :=
  match v with
  | JStr s => inr (strip s)
  | _ => inl AttributeError
  end.

(** ** [json.dumps] with its default arguments *)

Definition hex_digit (n : N) : char :=
  (if n <? 10 then 48 + n else 87 + n)%N.

(** ['\\u{0:04x}'.format(n)] for [n < 0x10000] *)
Definition u_escape (n : N) : pystr :=
  lit "\u" ++ [hex_digit (N.shiftr n 12 mod 16); hex_digit (N.shiftr n 8 mod 16);
               hex_digit (N.shiftr n 4 mod 16); hex_digit (n mod 16)]%N.

(** One character under [ensure_ascii=True]. *)
Definition escape_char (c : char) : pystr :=
  (if c =? 34 then lit "\" ++ [34]
   else if c =? 92 then lit "\\"
   else if c =? 10 then lit "\n"
   else if c =? 13 then lit "\r"
   else if c =? 9 then lit "\t"
   else if c =? 8 then lit "\b"
   else if c =? 12 then lit "\f"
   else if (32 <=? c) && (c <=? 126) then [c]
   else if c <? 65536 then u_escape c
   else let n := c - 65536 in
        u_escape (N.lor 55296 (N.land (N.shiftr n 10) 1023))
        ++ u_escape (N.lor 56320 (N.land n 1023)))%N.

Definition dumps_str (s : pystr) : pystr :=
  [34%N] ++ flat_map escape_char s ++ [34%N].

Fixpoint uint_digits (d : Decimal.uint) : pystr :=
  match d with
  | Decimal.Nil => []
  | Decimal.D0 d => 48%N :: uint_digits d
  | Decimal.D1 d => 49%N :: uint_digits d
  | Decimal.D2 d => 50%N :: uint_digits d
  | Decimal.D3 d => 51%N :: uint_digits d
  | Decimal.D4 d => 52%N :: uint_digits d
  | Decimal.D5 d => 53%N :: uint_digits d
  | Decimal.D6 d => 54%N :: uint_digits d
  | Decimal.D7 d => 55%N :: uint_digits d
  | Decimal.D8 d => 56%N :: uint_digits d
  | Decimal.D9 d => 57%N :: uint_digits d
  end.

(** [int.__repr__] *)
Definition dumps_int (n : Z) : pystr :=
  match n with
  | Z0 => lit "0"
  | Zpos p => uint_digits (Pos.to_uint p)
  | Zneg p => lit "-" ++ uint_digits (Pos.to_uint p)
  end.

Fixpoint json_dumps (v : json) : pystr :=
  match v with
  | JNull => lit "null"
  | JBool true => lit "true"
  | JBool false => lit "false"
  | JInt n => dumps_int n
  | JFloat f => float_dumps f
  | JStr s => dumps_str s
  | JList l =>
      let fix items (l : list json) : pystr :=
        match l with
        | [] => []
        | [x] => json_dumps x
        | x :: l' => json_dumps x ++ lit ", " ++ items l'
        end in
      lit "[" ++ items l ++ lit "]"
  | JDict d =>
      let fix members (d : list (pystr * json)) : pystr :=
        match d with
        | [] => []
        | [(k, x)] => dumps_str k ++ lit ": " ++ json_dumps x
        | (k, x) :: d' =>
            dumps_str k ++ lit ": " ++ json_dumps x ++ lit ", " ++ members d'
        end in
      lit "{" ++ members d ++ lit "}"
  end.

(** [s[:n]] *)
Definition slice_to (n : nat) (s : pystr) : pystr := firstn n s.

(** ** Request and response models *)

Module SourceCodeUpload.
Record t := {
  source_code : pystr;
  file_name : pystr;
  package_name : option pystr
}.
End SourceCodeUpload.

Module UTGenerationRequest.
Record t := {
  pattern_content : pystr;
  source_code : pystr;
  file_name : pystr;
  pattern_name : pystr;
  additional_context : option pystr
}.
End UTGenerationRequest.

Module UTGenerationResponse.
Record t := {
  unit_tests : pystr;
  pattern_used : pystr;
  file_analyzed : pystr
}.
End UTGenerationResponse.

(** The dictionary [upload_source] returns. *)
Module UploadSourceResult.
Record t := {
  status : pystr;
  message : pystr;
  file_name : pystr;
  package_name : option pystr
}.
End UploadSourceResult.

(** ** The outbound call *)

(** [httpx.Timeout]: seconds allowed to each phase of a request.  The
    source writes the literal [60.0]; whole seconds are kept here. *)
Record Timeout := { connect : Z; read : Z; write : Z; pool : Z }.

(** [httpx.Timeout(default, read=r)] *)
Definition httpx_Timeout (default : Z) (r : option Z) : Timeout :=
  {| connect := default;
     read := match r with Some x => x | None => default end;
     write := default;
     pool := default |}.

Record OutboundCall := {
  call_url : pystr;
  call_json : json;
  call_headers : list (pystr * pystr);
  call_timeout : Timeout
}.

(** An [httpx.Response]: its status, and what [r.json()] returns for its
    body; [None] when [r.json()] raises instead. *)
Record Response := { status_code : Z; decoded : option json }.

(** [r.json()] *)
Definition response_json (r : Response) : result json :=
  match decoded r with
  | Some v => inr v
  | None => inl ResponseJSONError
  end.

(** ** The handler monad: exceptions, and a log of outbound calls *)

Definition Handler (A : Type) : Type :=
  list OutboundCall -> result A * list OutboundCall.

#[export] Instance Monad_Handler : Monad Handler := {
  ret _ x := fun log => (inr x, log);
  bind _ _ c k := fun log =>
    match c log with
    | (inl e, log') => (inl e, log')
    | (inr x, log') => k x log'
    end
}.

#[export] Instance Exc_Handler : MonadExc exn Handler := {
  raise _ e := fun log => (inl e, log);
  catch _ c h := fun log =>
    match c log with
    | (inl e, log') => h e log'
    | (inr x, log') => (inr x, log')
    end
}.

(** A computation without outbound calls, run inside a handler. *)
Definition pure {A} (r : result A) : Handler A := fun log => (r, log).

#[export] Instance Monad_result : Monad (sum exn) := {
  ret _ x := inr x;
  bind _ _ c k := match c with inl e => inl e | inr x => k x end
}.

(** Run a handler from an empty log. *)
Definition run {A} (h : Handler A) : result A * list OutboundCall := h [].

(** ** POST /upload-source *)

Definition upload_source (payload : SourceCodeUpload.t)
  : result UploadSourceResult.t :=
  let source_code := strip (SourceCodeUpload.source_code payload) in
  let file_name := strip (SourceCodeUpload.file_name payload) in
  if negb (str_truthy source_code) then
    inl (HTTPException 400 (JStr (lit "Source code is required")))
  else if negb (str_truthy file_name) then
    inl (HTTPException 400 (JStr (lit "File name is required")))
  else if negb (endswith file_name (lit ".go")) then
    inl (HTTPException 400 (JStr (lit "File must be a Go source file (.go)")))
  else
    inr {| UploadSourceResult.status := lit "success";
           UploadSourceResult.message :=
             lit "Source file '" ++ file_name ++ lit "' uploaded successfully";
           UploadSourceResult.file_name := file_name;
           UploadSourceResult.package_name :=
             SourceCodeUpload.package_name payload |}.

(** ** POST /generate-ut *)

(** [sep.join(parts)] *)
Fixpoint join (sep : pystr) (parts : list pystr) : pystr :=
  match parts with
  | [] => []
  | [p] => p
  | p :: rest => p ++ sep ++ join sep rest
  end.

(** [payload.additional_context or "None provided"] *)
Definition context_or_placeholder (c : option pystr) : pystr :=
  match c with
  | Some s => if str_truthy s then s else lit "None provided"
  | None => lit "None provided"
  end.

(** The f-string of the handler, line by line; [additional_context] is
    what the template's last placeholder evaluates to. *)
Definition prompt_template
  (pattern_name pattern_content file_name source_code additional_context : pystr)
  : pystr :=
  join [10%N] [
    [];
    lit "You are an expert Go developer tasked with generating unit tests based on a specific pattern.";
    [];
    lit "PATTERN DEFINITION:";
    lit "Pattern Name: " ++ pattern_name;
    lit "Pattern Content:";
    pattern_content;
    [];
    lit "SOURCE CODE TO TEST:";
    lit "File Name: " ++ file_name;
    source_code;
    [];
    lit "ADDITIONAL CONTEXT:";
    additional_context;
    [];
    lit "INSTRUCTIONS:";
    lit "1. Analyze the provided pattern to understand the testing methodology";
    lit "2. Study the source code structure, functions, and interfaces";
    lit "3. Generate comprehensive unit tests following the pattern's style and conventions";
    lit "4. Include test cases for:";
    lit "   - Happy path scenarios";
    lit "   - Edge cases";
    lit "   - Error conditions";
    lit "   - Mock usage (if shown in pattern)";
    lit "5. Ensure tests are idiomatic Go and follow the pattern's approach";
    lit "6. Provide ONLY the generated test code, no explanations";
    [];
    lit "Generate the unit tests:";
    []
  ].

(** [data["candidates"][0]["content"]["parts"][0]["text"].strip()] *)
Definition extract_text (data : json) : result pystr :=
  candidates <- getitem_key data (lit "candidates") ;;
  candidate <- getitem_index candidates 0 ;;
  content <- getitem_key candidate (lit "content") ;;
  parts <- getitem_key content (lit "parts") ;;
  part <- getitem_index parts 0 ;;
  text <- getitem_key part (lit "text") ;;
  py_strip text.

(** [(data.get("error") or {}).get("message") or "Upstream error"] *)
Definition upstream_message (data : json) : result json :=
  error <- py_get data (lit "error") ;;
  message <- py_get (py_or error (JDict [])) (lit "message") ;;
  ret (py_or message (JStr (lit "Upstream error"))).

Section Service.

(** Built once at start-up from the environment. *)
Variable GEMINI_URL : pystr.

(** The remote API: what [client.post] meets for a given call. *)
Variable upstream : OutboundCall -> httpx_exn + Response.

(** [await client.post(url, json=body, headers=headers)] on a client
    built with [timeout]. *)
Definition client_post (timeout : Timeout) (url : pystr) (body : json)
    (headers : list (pystr * pystr)) : Handler Response :=
  fun log =>
    let call := {| call_url := url; call_json := body;
                   call_headers := headers; call_timeout := timeout |} in
    (match upstream call with
     | inl e => inl (HTTPXError e)
     | inr r => inr r
     end, log ++ [call]).

Definition generate_unit_tests (payload : UTGenerationRequest.t)
  : Handler UTGenerationResponse.t :=
  let pattern_content := strip (UTGenerationRequest.pattern_content payload) in
  let source_code := strip (UTGenerationRequest.source_code payload) in
  let file_name := strip (UTGenerationRequest.file_name payload) in
  let pattern_name := strip (UTGenerationRequest.pattern_name payload) in
  if negb (forallb str_truthy
             [pattern_content; source_code; file_name; pattern_name]) then
    raise (HTTPException 400 (JStr (lit
      "All fields (pattern_content, source_code, file_name, pattern_name) are required")))
  else
    let prompt :=
      prompt_template pattern_name pattern_content file_name source_code
        (context_or_placeholder
           (UTGenerationRequest.additional_context payload)) in
    let body :=
      JDict [(lit "contents",
              JList [JDict [(lit "parts",
                             JList [JDict [(lit "text", JStr prompt)]])]])] in
    let timeout := httpx_Timeout 60 (Some 60%Z) in
    r <- client_post timeout GEMINI_URL body
           [(lit "Content-Type", lit "application/json")] ;;
    data <- pure (response_json r) ;;
    (if negb (status_code r =? 200)%Z then
       msg <- pure (upstream_message data) ;;
       raise (HTTPException (status_code r) msg)
     else ret tt) ;;
    unit_tests <-
      catch (pure (extract_text data))
        (fun _ => raise (HTTPException 502 (JStr
           (lit "Unexpected API response: "
            ++ slice_to 800 (json_dumps data))))) ;;
    ret {| UTGenerationResponse.unit_tests := unit_tests;
           UTGenerationResponse.pattern_used := pattern_name;
           UTGenerationResponse.file_analyzed := file_name |}.

End Service.

(** ** POST /upload-pattern *)

Module PatternUpload.
Record t := {
  pattern_content : pystr;
  pattern_name : pystr;
  description : option pystr
}.
End PatternUpload.

(** The dictionary [upload_pattern] returns. *)
Module UploadPatternResult.
Record t := {
  status : pystr;
  message : pystr;
  pattern_name : pystr;
  description : option pystr
}.
End UploadPatternResult.

Definition upload_pattern (payload : PatternUpload.t)
  : result UploadPatternResult.t :=
  let pattern_content := strip (PatternUpload.pattern_content payload) in
  let pattern_name := strip (PatternUpload.pattern_name payload) in
  if negb (str_truthy pattern_content) then
    inl (HTTPException 400 (JStr (lit "Pattern content is required")))
  else if negb (str_truthy pattern_name) then
    inl (HTTPException 400 (JStr (lit "Pattern name is required")))
  else
    inr {| UploadPatternResult.status := lit "success";
           UploadPatternResult.message :=
             lit "Pattern '" ++ pattern_name ++ lit "' uploaded successfully";
           UploadPatternResult.pattern_name := pattern_name;
           UploadPatternResult.description :=
             PatternUpload.description payload |}.

(** ** Start-up: the module-level settings *)

(** The process environment, as [os.getenv] reads it. *)
Definition environ := pystr -> option pystr.

(** [os.getenv(name, default)] *)
Definition getenv_default (env : environ) (name default : pystr) : pystr :=
  match env name with
  | Some v => v
  | None => default
  end.

(** What an f-string writes for the value of [os.getenv(name)]. *)
Definition format_optional (v : option pystr) : pystr :=
  match v with
  | Some s => s
  | None => lit "None"
  end.

(** Truthiness of the value of [os.getenv(name)]. *)
Definition optional_truthy (v : option pystr) : bool :=
  match v with
  | Some s => str_truthy s
  | None => false
  end.

(** [s.split(sep)] for a separator of one character. *)
Fixpoint split (sep : char) (s : pystr) : list pystr :=
  match s with
  | [] => [[]]
  | c :: s' =>
      if (c =? sep)%N then [] :: split sep s'
      else match split sep s' with
           | p :: ps => (c :: p) :: ps
           | [] => [[c]]
           end
  end.

Module Settings.
Record t := {
  GEMINI_API_KEY : option pystr;
  GEMINI_MODEL : pystr;
  GEMINI_URL : pystr;
  ALLOWED_ORIGINS : list pystr
}.
End Settings.

Inductive startup_error := RuntimeError (msg : pystr).

(** The module-level statements of [app.py], in their order: the three
    settings read from the environment, the check of the key, the list
    of allowed origins. *)
Definition startup (env : environ) : startup_error + Settings.t :=
  let GEMINI_API_KEY := env (lit "GEMINI_API_KEY") in
  let GEMINI_MODEL :=
    getenv_default env (lit "GEMINI_MODEL") (lit "gemini-2.5-flash") in
  let GEMINI_URL :=
    lit "https://generativelanguage.googleapis.com/v1beta/models/"
    ++ GEMINI_MODEL ++ lit ":generateContent?key="
    ++ format_optional GEMINI_API_KEY in
  if negb (optional_truthy GEMINI_API_KEY) then
    inl (RuntimeError (lit "Missing GEMINI_API_KEY environment variable"))
  else
    let ALLOWED_ORIGINS :=
      split 44%N (getenv_default env (lit "ALLOWED_ORIGINS") (lit "*")) in
    inr {| Settings.GEMINI_API_KEY := GEMINI_API_KEY;
           Settings.GEMINI_MODEL := GEMINI_MODEL;
           Settings.GEMINI_URL := GEMINI_URL;
           Settings.ALLOWED_ORIGINS := ALLOWED_ORIGINS |}.

(** ** What a valid request sends *)

(** The four required fields are non-empty after trimming. *)
Definition valid (payload : UTGenerationRequest.t) : Prop :=
  blank (UTGenerationRequest.pattern_content payload) = false /\
  blank (UTGenerationRequest.source_code payload) = false /\
  blank (UTGenerationRequest.file_name payload) = false /\
  blank (UTGenerationRequest.pattern_name payload) = false.

(** The request schema of the collaborator:
    [{contents: [{parts: [{text: <prompt>}]}]}], posted as JSON under the
    client's timeout. *)
Definition generation_call (url prompt : pystr) : OutboundCall :=
  {| call_url := url;
     call_json :=
       JDict [(lit "contents",
               JList [JDict [(lit "parts",
                              JList [JDict [(lit "text", JStr prompt)]])]])];
     call_headers := [(lit "Content-Type", lit "application/json")];
     call_timeout := {| connect := 60; read := 60; write := 60; pool := 60 |} |}.

(** The prompt the handler renders for a request. *)
Definition prompt_of (payload : UTGenerationRequest.t) : pystr :=
  prompt_template
    (strip (UTGenerationRequest.pattern_name payload))
    (strip (UTGenerationRequest.pattern_content payload))
    (strip (UTGenerationRequest.file_name payload))
    (strip (UTGenerationRequest.source_code payload))
    (context_or_placeholder (UTGenerationRequest.additional_context payload)).

(** The first candidate's first content part's text, when the payload
    has the expected shape
    [{candidates: [{content: {parts: [{text: ...}]}}]}]. *)
Definition nested_text (data : json) : option json :=
  match data with
  | JDict d =>
      match lookup d (lit "candidates") with
      | Some (JList (JDict candidate :: _)) =>
          match lookup candidate (lit "content") with
          | Some (JDict content) =>
              match lookup content (lit "parts") with
              | Some (JList (JDict part :: _)) => lookup part (lit "text")
              | _ => None
              end
          | _ => None
          end
      | _ => None
      end
  | _ => None
  end.

(** The status a client of the service sees: the framework answers an
    [HTTPException] with its status code and any other exception with
    500. *)
Definition http_status {A} (r : result A) : Z :=
  match r with
  | inr _ => 200
  | inl (HTTPException s _) => s
  | inl _ => 500
  end.

(** ** Concrete requests and upstream answers *)

(** An upstream that answers every call with the given status and JSON
    body. *)
Definition answering (status : Z) (data : json)
  : OutboundCall -> httpx_exn + Response :=
  fun _ => inr {| status_code := status; decoded := Some data |}.

Definition scenario_request : UTGenerationRequest.t :=
  {| UTGenerationRequest.pattern_content := lit "P";
     UTGenerationRequest.source_code := lit "S";
     UTGenerationRequest.file_name := lit "a.go";
     UTGenerationRequest.pattern_name := lit "N";
     UTGenerationRequest.additional_context := None |}.

(** The same request with whitespace around every field. *)
Definition padded_request : UTGenerationRequest.t :=
  {| UTGenerationRequest.pattern_content := lit " P ";
     UTGenerationRequest.source_code := lit "S" ++ [10%N];
     UTGenerationRequest.file_name := lit " a.go ";
     UTGenerationRequest.pattern_name := lit " N ";
     UTGenerationRequest.additional_context := Some (lit " ctx ") |}.

(** [{candidates: [{content: {parts: [{text: "  test code  "}]}}]}] *)
Definition scenario_payload : json :=
  JDict [(lit "candidates",
          JList [JDict [(lit "content",
                         JDict [(lit "parts",
                                 JList [JDict [(lit "text",
                                                JStr (lit "  test code  "))]])])]])].

(** A request whose [pattern_name] is whitespace only. *)
Definition blank_name_request : UTGenerationRequest.t :=
  {| UTGenerationRequest.pattern_content := lit "P";
     UTGenerationRequest.source_code := lit "S";
     UTGenerationRequest.file_name := lit "a.go";
     UTGenerationRequest.pattern_name := [32; 9; 10]%N;
     UTGenerationRequest.additional_context := None |}.

(** A success body of the wrong shape, 1002 characters once dumped. *)
Definition long_payload : json := JStr (repeat 120%N 1000).

(** [{"error": {"message": "quota exceeded"}}] *)
Definition quota_payload : json :=
  JDict [(lit "error", JDict [(lit "message", JStr (lit "quota exceeded"))])].

(** An error object with a code and an empty message. *)
Definition empty_message_payload : json :=
  JDict [(lit "error", JDict [(lit "code", JInt 503);
                              (lit "message", JStr [])])].

Definition upload (source_code file_name : pystr) : SourceCodeUpload.t :=
  {| SourceCodeUpload.source_code := source_code;
     SourceCodeUpload.file_name := file_name;
     SourceCodeUpload.package_name := None |}.

(** An environment with a key and two origins, no model. *)
Definition example_environ : environ :=
  fun name =>
    if pystr_eqb name (lit "GEMINI_API_KEY") then Some (lit "k3y")
    else if pystr_eqb name (lit "ALLOWED_ORIGINS") then
      Some (lit "https://a.example, https://b.example")
    else None.

(** An environment whose key is set to the empty string. *)
Definition empty_key_environ : environ :=
  fun name =>
    if pystr_eqb name (lit "GEMINI_API_KEY") then Some [] else None.

Definition pattern_upload (pattern_content pattern_name : pystr)
  : PatternUpload.t :=
  {| PatternUpload.pattern_content := pattern_content;
     PatternUpload.pattern_name := pattern_name;
     PatternUpload.description := Some (lit " table tests ") |}.

(** The scenario request for a file that is not a Go source file. *)
Definition txt_request : UTGenerationRequest.t :=
  {| UTGenerationRequest.pattern_content := lit "P";
     UTGenerationRequest.source_code := lit "S";
     UTGenerationRequest.file_name := lit "a.txt";
     UTGenerationRequest.pattern_name := lit "N";
     UTGenerationRequest.additional_context := None |}.

(** A success body whose text is a number, and one whose text is made of
    whitespace. *)
Definition number_text_payload : json :=
  JDict [(lit "candidates",
          JList [JDict [(lit "content",
                         JDict [(lit "parts",
                                 JList [JDict [(lit "text", JInt 7)]])])]])].

Definition blank_text_payload : json :=
  JDict [(lit "candidates",
          JList [JDict [(lit "content",
                         JDict [(lit "parts",
                                 JList [JDict [(lit "text",
                                                JStr [32; 10; 9]%N)]])])]])].

(** An upstream that never answers. *)
Definition timing_out : OutboundCall -> httpx_exn + Response :=
  fun _ => inl TimeoutException.

(** An upstream whose body [r.json()] cannot decode. *)
Definition answering_html (status : Z) : OutboundCall -> httpx_exn + Response :=
  fun _ => inr {| status_code := status; decoded := None |}.

Arguments lit : simpl never.
Arguments strip : simpl never.
Arguments prompt_template : simpl never.
Arguments json_dumps : simpl never.
Arguments slice_to : simpl never.

(** ** Lemmas on the Python primitives *)

(** *** Facts about stripping *)

Lemma pystr_eqb_eq s t : pystr_eqb s t = true <-> s = t.
Proof.
  revert t; induction s as [|a s IH]; intros [|b t]; simpl;
    try (split; [discriminate | congruence]); try tauto.
  rewrite andb_true_iff, N.eqb_eq, IH. split.
  - intros [-> ->]; reflexivity.
  - intros E; injection E; auto.
Qed.

Lemma lstrip_blank s : blank s = true -> lstrip s = [].
Proof.
  induction s as [|c s IH]; simpl; [reflexivity|].
  intros H. apply andb_true_iff in H as [Hc Hs]. now rewrite Hc, IH.
Qed.

Lemma lstrip_nil_blank s : lstrip s = [] -> blank s = true.
Proof.
  induction s as [|c s IH]; simpl; [reflexivity|].
  destruct (isspace c); [auto | discriminate].
Qed.

Lemma blank_app s t : blank (s ++ t) = blank s && blank t.
Proof. apply forallb_app. Qed.

Lemma blank_rev s : blank (rev s) = blank s.
Proof.
  induction s as [|c s IH]; simpl; [reflexivity|].
  rewrite blank_app, IH. simpl. rewrite andb_true_r. apply andb_comm.
Qed.

Lemma lstrip_app_blank ws s : blank ws = true -> lstrip (ws ++ s) = lstrip s.
Proof.
  induction ws as [|c ws IH]; simpl; [reflexivity|].
  intros H. apply andb_true_iff in H as [Hc Hs]. now rewrite Hc, IH.
Qed.

(** What [lstrip] leaves starts with a non-space character. *)
Lemma lstrip_head s c r : lstrip s = c :: r -> isspace c = false.
Proof.
  induction s as [|a s IH]; simpl; [discriminate|].
  destruct (isspace a) eqn:Ha; [exact IH|].
  intros E; injection E as -> _. exact Ha.
Qed.

Lemma lstrip_fixed c r : isspace c = false -> lstrip (c :: r) = c :: r.
Proof. intros H; simpl; now rewrite H. Qed.

Lemma lstrip_idem s : lstrip (lstrip s) = lstrip s.
Proof.
  destruct (lstrip s) as [|c r] eqn:E; [reflexivity|].
  apply lstrip_fixed. eapply lstrip_head; eauto.
Qed.

(** Extending on the right a string that has a non-space character does
    not change what [lstrip] removes. *)
Lemma lstrip_app_nonblank s t :
  blank s = false -> lstrip (s ++ t) = lstrip s ++ t.
Proof.
  induction s as [|c s IH]; simpl; [discriminate|].
  destruct (isspace c); simpl; [exact IH | reflexivity].
Qed.

Lemma rstrip_app_blank s ws : blank ws = true -> rstrip (s ++ ws) = rstrip s.
Proof.
  intros H. unfold rstrip. rewrite rev_app_distr.
  rewrite lstrip_app_blank; [reflexivity | now rewrite blank_rev].
Qed.

Lemma rstrip_blank s : blank s = true -> rstrip s = [].
Proof.
  intros H. unfold rstrip. rewrite lstrip_blank; [reflexivity|].
  now rewrite blank_rev.
Qed.

Lemma rstrip_cons_nonblank c s :
  blank s = false -> rstrip (c :: s) = c :: rstrip s.
Proof.
  intros H. unfold rstrip. simpl.
  rewrite lstrip_app_nonblank by now rewrite blank_rev.
  rewrite rev_app_distr. reflexivity.
Qed.

Lemma rstrip_cons_blank c s :
  blank s = true -> rstrip (c :: s) = if isspace c then [] else [c].
Proof.
  intros H. unfold rstrip. simpl.
  rewrite lstrip_app_blank by now rewrite blank_rev.
  simpl. destruct (isspace c); reflexivity.
Qed.

(** Stripping on the right never disturbs the first character of a
    string that starts with a non-space. *)
Lemma rstrip_keeps_head c r :
  isspace c = false -> exists r', rstrip (c :: r) = c :: r'.
Proof.
  intros Hc. destruct (blank r) eqn:B.
  - rewrite rstrip_cons_blank, Hc by assumption. now exists [].
  - rewrite rstrip_cons_nonblank by assumption. eauto.
Qed.

Lemma rstrip_idem s : rstrip (rstrip s) = rstrip s.
Proof.
  unfold rstrip. rewrite rev_involutive, lstrip_idem. reflexivity.
Qed.

Lemma lstrip_rstrip_fixed s :
  lstrip (rstrip (lstrip s)) = rstrip (lstrip s).
Proof.
  destruct (lstrip s) as [|c r] eqn:E; [reflexivity|].
  pose proof (lstrip_head _ _ _ E) as Hc.
  destruct (rstrip_keeps_head c r Hc) as [r' ->].
  now apply lstrip_fixed.
Qed.

Theorem strip_idem s : strip (strip s) = strip s.
Proof.
  unfold strip. rewrite lstrip_rstrip_fixed. apply rstrip_idem.
Qed.

Theorem strip_nil_iff s : strip s = [] <-> blank s = true.
Proof.
  unfold strip. split.
  - intros H. destruct (lstrip s) as [|c r] eqn:E.
    + now apply lstrip_nil_blank.
    + pose proof (lstrip_head _ _ _ E) as Hc.
      destruct (rstrip_keeps_head c r Hc) as [r' Hr]. congruence.
  - intros H. now rewrite lstrip_blank.
Qed.

Theorem strip_surround ws1 s ws2 :
  blank ws1 = true -> blank ws2 = true ->
  strip (ws1 ++ s ++ ws2) = strip s.
Proof.
  intros H1 H2. unfold strip. rewrite lstrip_app_blank by assumption.
  destruct (blank s) eqn:B.
  - rewrite (lstrip_blank s) by assumption.
    rewrite lstrip_blank; [reflexivity|].
    now rewrite blank_app, B, H2.
  - rewrite lstrip_app_nonblank by assumption.
    now apply rstrip_app_blank.
Qed.

Lemma str_truthy_strip s : str_truthy (strip s) = negb (blank s).
Proof.
  destruct (blank s) eqn:B.
  - apply strip_nil_iff in B. now rewrite B.
  - destruct (strip s) eqn:E; [|reflexivity].
    apply strip_nil_iff in E. congruence.
Qed.


Lemma slice_to_length n s : List.length (slice_to n s) <= n.
Proof. apply firstn_le_length. Qed.

Lemma slice_to_prefix n s : exists rest, s = slice_to n s ++ rest.
Proof. exists (skipn n s). symmetry. apply firstn_skipn. Qed.

Lemma Contains_refl s : Contains s s.
Proof. exists [], []. now rewrite app_nil_r. Qed.

Lemma Contains_app_l s t u : Contains t u -> Contains (s ++ t) u.
Proof.
  intros (pre & post & ->). exists (s ++ pre), post. now rewrite <- app_assoc.
Qed.

Lemma Contains_app_r s t u : Contains s u -> Contains (s ++ t) u.
Proof.
  intros (pre & post & ->). exists pre, (post ++ t).
  now rewrite <- !app_assoc.
Qed.

(** Every part of a joined string occurs in it. *)
Lemma Contains_join sep parts p : In p parts -> Contains (join sep parts) p.
Proof.
  induction parts as [|q parts IH]; [intros []|].
  intros [->|Hin].
  - destruct parts; simpl; [apply Contains_refl|].
    apply Contains_app_r, Contains_refl.
  - destruct parts as [|q' parts]; [destruct Hin|].
    change (join sep (q :: q' :: parts))
      with (q ++ sep ++ join sep (q' :: parts)).
    now apply Contains_app_l, Contains_app_l, IH.
Qed.

(** Subscripting succeeds on the expected shape only. *)
Lemma extract_text_found data T :
  nested_text data = Some (JStr T) -> extract_text data = inr (strip T).
Proof.
  unfold nested_text, extract_text. intros H.
  destruct data as [| | | | |l|d]; try discriminate. simpl.
  destruct (lookup d (lit "candidates")) as [[| | | | |[|[| | | | | |c] l]|]|];
    try discriminate. simpl.
  destruct (lookup c (lit "content")) as [[| | | | | |ct]|]; try discriminate.
  simpl.
  destruct (lookup ct (lit "parts")) as [[| | | | |[|[| | | | | |p] l']|]|];
    try discriminate. simpl.
  rewrite H. reflexivity.
Qed.

Lemma extract_text_missing data :
  nested_text data = None -> exists e, extract_text data = inl e.
Proof.
  unfold nested_text, extract_text. intros H.
  destruct data as [| | | | |l|d]; simpl; eauto.
  destruct (lookup d (lit "candidates")) as [[| | | | |[|[| | | | | |c] l]|]|];
    simpl; eauto.
  - destruct s; simpl; eauto.
  - destruct (lookup c (lit "content")) as [[| | | | | |ct]|]; simpl; eauto.
    destruct (lookup ct (lit "parts")) as [[| | | | |[|[| | | | | |p] l']|]|];
      simpl; eauto.
    + destruct s; simpl; eauto.
    + rewrite H. eauto.
Qed.

Lemma extract_text_inv data u :
  extract_text data = inr u ->
  exists T, nested_text data = Some (JStr T) /\ u = strip T.
Proof.
  destruct (nested_text data) as [v|] eqn:E.
  - destruct v; try (rewrite (extract_text_found _ _ E);
      intros [= <-]; eauto; fail).
    all: revert E; unfold nested_text, extract_text;
      destruct data as [| | | | |xs|obj]; try discriminate; simpl;
      destruct (lookup obj (lit "candidates"))
        as [[| | | | |[|[| | | | | |c] cs]|]|]; try discriminate; simpl;
      destruct (lookup c (lit "content")) as [[| | | | | |ct]|];
        try discriminate; simpl;
      destruct (lookup ct (lit "parts"))
        as [[| | | | |[|[| | | | | |p] ps]|]|]; try discriminate; simpl;
      intros ->; simpl; discriminate.
  - destruct (extract_text_missing _ E) as [e ->]. discriminate.
Qed.

(** [upstream_message] on a JSON object, case by case. *)
Lemma upstream_message_dict d :
  upstream_message (JDict d) =
  match lookup d (lit "error") with
  | None => inr (JStr (lit "Upstream error"))
  | Some err =>
      if truthy err then
        match err with
        | JDict e =>
            inr (match lookup e (lit "message") with
                 | Some m => if truthy m then m else JStr (lit "Upstream error")
                 | None => JStr (lit "Upstream error")
                 end)
        | _ => inl AttributeError
        end
      else inr (JStr (lit "Upstream error"))
  end.
Proof.
  unfold upstream_message, py_or. simpl.
  destruct (lookup d (lit "error")) as [err|]; [|reflexivity].
  destruct (truthy err) eqn:Ht; [|reflexivity].
  destruct err; try reflexivity. simpl.
  destruct (lookup d0 (lit "message")) as [m|]; [|reflexivity].
  simpl. now destruct (truthy m).
Qed.

Lemma upstream_message_not_dict data :
  (forall d, data <> JDict d) -> upstream_message data = inl AttributeError.
Proof. intros H. destruct data; try reflexivity. now destruct (H d). Qed.

(** ** The handler of /generate-ut, path by path *)

Import UTGenerationRequest.

Lemma guard_valid payload :
  valid payload ->
  forallb str_truthy
    [strip (pattern_content payload); strip (source_code payload);
     strip (file_name payload); strip (pattern_name payload)] = true.
Proof.
  intros (H1 & H2 & H3 & H4). simpl.
  rewrite !str_truthy_strip, H1, H2, H3, H4. reflexivity.
Qed.

Lemma guard_invalid payload :
  blank (pattern_content payload) = true \/
  blank (source_code payload) = true \/
  blank (file_name payload) = true \/
  blank (pattern_name payload) = true ->
  forallb str_truthy
    [strip (pattern_content payload); strip (source_code payload);
     strip (file_name payload); strip (pattern_name payload)] = false.
Proof.
  simpl. rewrite !str_truthy_strip.
  intros [H|[H|[H|H]]]; rewrite H; simpl;
    rewrite ?andb_false_r; reflexivity.
Qed.

Section Paths.

Variable GEMINI_URL : pystr.
Variable upstream : OutboundCall -> httpx_exn + Response.
Variable payload : UTGenerationRequest.t.
Variable log : list OutboundCall.

Local Abbreviation the_call := (generation_call GEMINI_URL (prompt_of payload)).
Local Abbreviation handle :=
  (generate_unit_tests GEMINI_URL upstream payload log).

Ltac enter_handler Hv :=
  unfold generate_unit_tests;
  rewrite (guard_valid _ Hv);
  cbn [negb bind ret raise catch Monad_Handler Exc_Handler];
  unfold client_post;
  change (httpx_Timeout 60 (Some 60%Z))
    with {| connect := 60; read := 60; write := 60; pool := 60 |};
  fold (prompt_of payload);
  fold (generation_call GEMINI_URL (prompt_of payload)).

Lemma generate_invalid :
  blank (pattern_content payload) = true \/
  blank (source_code payload) = true \/
  blank (file_name payload) = true \/
  blank (pattern_name payload) = true ->
  handle =
  (inl (HTTPException 400 (JStr (lit
     "All fields (pattern_content, source_code, file_name, pattern_name) are required"))),
   log).
Proof.
  intros H. unfold generate_unit_tests.
  rewrite (guard_invalid _ H). reflexivity.
Qed.

Lemma generate_transport_failure e :
  valid payload -> upstream the_call = inl e ->
  handle = (inl (HTTPXError e), log ++ [the_call]).
Proof. intros Hv Hu. enter_handler Hv. rewrite Hu. reflexivity. Qed.

Lemma generate_undecodable r :
  valid payload -> upstream the_call = inr r -> decoded r = None ->
  handle = (inl ResponseJSONError, log ++ [the_call]).
Proof.
  intros Hv Hu Hd. enter_handler Hv. rewrite Hu.
  unfold pure, response_json. rewrite Hd. reflexivity.
Qed.

Lemma generate_non_success r data :
  valid payload -> upstream the_call = inr r -> decoded r = Some data ->
  status_code r <> 200%Z ->
  handle =
  (match upstream_message data with
   | inl e => inl e
   | inr msg => inl (HTTPException (status_code r) msg)
   end, log ++ [the_call]).
Proof.
  intros Hv Hu Hd Hs. enter_handler Hv. rewrite Hu.
  unfold pure, response_json. rewrite Hd.
  apply Z.eqb_neq in Hs. rewrite Hs. simpl.
  destruct (upstream_message data); reflexivity.
Qed.

Lemma generate_success r data :
  valid payload -> upstream the_call = inr r -> decoded r = Some data ->
  status_code r = 200%Z ->
  handle =
  (match extract_text data with
   | inr text =>
       inr {| UTGenerationResponse.unit_tests := text;
              UTGenerationResponse.pattern_used := strip (pattern_name payload);
              UTGenerationResponse.file_analyzed := strip (file_name payload) |}
   | inl _ =>
       inl (HTTPException 502 (JStr
         (lit "Unexpected API response: " ++ slice_to 800 (json_dumps data))))
   end, log ++ [the_call]).
Proof.
  intros Hv Hu Hd Hs. enter_handler Hv. rewrite Hu.
  unfold pure, response_json. rewrite Hd, Hs. simpl.
  destruct (extract_text data); reflexivity.
Qed.

(** A valid request makes exactly one outbound call, whatever comes
    back. *)
Lemma generate_calls_once :
  valid payload -> snd handle = log ++ [the_call].
Proof.
  intros Hv.
  destruct (upstream the_call) as [e|r] eqn:Hu.
  - now rewrite (generate_transport_failure e).
  - destruct (decoded r) as [data|] eqn:Hd.
    + destruct (Z.eq_dec (status_code r) 200) as [Hs|Hs].
      * now rewrite (generate_success r data).
      * now rewrite (generate_non_success r data).
    + now rewrite (generate_undecodable r).
Qed.

End Paths.


Lemma Contains_trans s t u : Contains s t -> Contains t u -> Contains s u.
Proof.
  intros (a & b & ->) (c & d & ->). exists (a ++ c), (d ++ b).
  now rewrite <- !app_assoc.
Qed.

Lemma Contains_nil s : Contains s [].
Proof. now exists [], s. Qed.

Lemma run_calls_once url upstream payload :
  valid payload ->
  snd (run (generate_unit_tests url upstream payload)) =
  [generation_call url (prompt_of payload)].
Proof. intros Hv. unfold run. now rewrite generate_calls_once. Qed.

(** The lines of the template that carry the request's fields. *)
Lemma prompt_template_fields pn pc fn sc ctx :
  let prompt := prompt_template pn pc fn sc ctx in
  Contains prompt pn /\ Contains prompt pc /\ Contains prompt fn /\
  Contains prompt sc /\ Contains prompt ctx.
Proof.
  unfold prompt_template.
  repeat split.
  - eapply Contains_trans;
      [apply (Contains_join _ _ (lit "Pattern Name: " ++ pn))
      |apply Contains_app_l, Contains_refl].
    simpl; tauto.
  - apply Contains_join. simpl; tauto.
  - eapply Contains_trans;
      [apply (Contains_join _ _ (lit "File Name: " ++ fn))
      |apply Contains_app_l, Contains_refl].
    simpl; tauto.
  - apply Contains_join. simpl; tauto.
  - apply Contains_join. simpl; tauto.
Qed.

(** ** POST /generate-ut: the claims *)

(** C1. A request to /generate-ut in which one of the four required
    fields is empty or made of whitespace only fails with
    [HTTPException(400)], and the log of outbound calls is left as it
    was: nothing is sent upstream. *)
Theorem generate_rejects_blank_fields url upstream payload log :
  blank (pattern_content payload) = true \/
  blank (source_code payload) = true \/
  blank (file_name payload) = true \/
  blank (pattern_name payload) = true ->
  generate_unit_tests url upstream payload log =
  (inl (HTTPException 400 (JStr (lit
     "All fields (pattern_content, source_code, file_name, pattern_name) are required"))),
   log)
  /\ http_status (fst (generate_unit_tests url upstream payload log)) = 400%Z
  /\ snd (run (generate_unit_tests url upstream payload)) = [].
Proof.
  intros H. unfold run. rewrite !generate_invalid by assumption.
  repeat split.
Qed.

(** C2, as the code has it.  For a valid request, when the upstream
    answers 200 and the payload holds the text [T] at
    candidates[0].content.parts[0].text, the response carries [T]
    trimmed as [unit_tests], and the TRIMMED [pattern_name] and
    [file_name] of the request as [pattern_used] and [file_analyzed]. *)
Theorem generate_success_response url upstream payload r data T :
  valid payload ->
  upstream (generation_call url (prompt_of payload)) = inr r ->
  status_code r = 200%Z ->
  decoded r = Some data ->
  nested_text data = Some (JStr T) ->
  fst (run (generate_unit_tests url upstream payload)) =
  inr {| UTGenerationResponse.unit_tests := strip T;
         UTGenerationResponse.pattern_used := strip (pattern_name payload);
         UTGenerationResponse.file_analyzed := strip (file_name payload) |}.
Proof.
  intros Hv Hu Hs Hd Ht. unfold run.
  rewrite (generate_success _ _ _ _ r data Hv Hu Hd Hs).
  now rewrite (extract_text_found _ _ Ht).
Qed.

(** C3, as the code has it.  For a valid request, when the upstream
    answers a status other than 200 with a JSON object as body: a
    truthy message [M] (any non-empty string) in the body's error object
    is relayed unchanged under the upstream status; when the error is
    absent or falsy, or is an object whose message is absent or falsy,
    the detail is the fallback "Upstream error" under the same status. *)
Theorem upstream_error_relayed url upstream payload r d :
  valid payload ->
  upstream (generation_call url (prompt_of payload)) = inr r ->
  status_code r <> 200%Z ->
  decoded r = Some (JDict d) ->
  (forall e M,
      lookup d (lit "error") = Some (JDict e) ->
      lookup e (lit "message") = Some M ->
      truthy M = true ->
      fst (run (generate_unit_tests url upstream payload)) =
      inl (HTTPException (status_code r) M))
  /\
  ((lookup d (lit "error") = None
    \/ (exists err, lookup d (lit "error") = Some err /\ truthy err = false)
    \/ (exists e, lookup d (lit "error") = Some (JDict e)
                  /\ (lookup e (lit "message") = None
                      \/ exists M, lookup e (lit "message") = Some M
                                   /\ truthy M = false))) ->
   fst (run (generate_unit_tests url upstream payload)) =
   inl (HTTPException (status_code r) (JStr (lit "Upstream error")))).
Proof.
  intros Hv Hu Hs Hd. unfold run.
  rewrite (generate_non_success _ _ _ _ r (JDict d) Hv Hu Hd Hs).
  rewrite upstream_message_dict. split.
  - intros e M He HM Ht. rewrite He. simpl.
    destruct e as [|kv e']; [discriminate|]. simpl in *.
    now rewrite HM, Ht.
  - intros [Hn|[(err & He & Hf)|(e & He & Hm)]].
    + now rewrite Hn.
    + now rewrite He, Hf.
    + rewrite He. destruct (truthy (JDict e)); [|reflexivity]. simpl.
      destruct Hm as [Hm|(M & Hm & Hf)].
      * now rewrite Hm.
      * now rewrite Hm, Hf.
Qed.

(** C4. For a valid request, when the upstream answers 200 and the
    payload has no text at candidates[0].content.parts[0].text, the
    handler fails with [HTTPException(502)]; the detail is the fixed
    prefix followed by a prefix of [json.dumps(data)] of at most 800
    characters. *)
Theorem malformed_success_is_502 url upstream payload r data :
  valid payload ->
  upstream (generation_call url (prompt_of payload)) = inr r ->
  status_code r = 200%Z ->
  decoded r = Some data ->
  nested_text data = None ->
  exists diagnostic,
    fst (run (generate_unit_tests url upstream payload)) =
    inl (HTTPException 502
           (JStr (lit "Unexpected API response: " ++ diagnostic)))
    /\ diagnostic = slice_to 800 (json_dumps data)
    /\ List.length diagnostic <= 800
    /\ exists rest, json_dumps data = diagnostic ++ rest.
Proof.
  intros Hv Hu Hs Hd Hn. exists (slice_to 800 (json_dumps data)).
  unfold run. rewrite (generate_success _ _ _ _ r data Hv Hu Hd Hs).
  destruct (extract_text_missing _ Hn) as [e ->].
  repeat split.
  - apply slice_to_length.
  - apply slice_to_prefix.
Qed.

(** C5. For a valid request the prompt is fixed by the request alone:
    whatever the configured URL is and whatever the upstream does, the
    one outbound call carries the same prompt.  That prompt contains the (trimmed) pattern name, pattern
    content, file name and source code, and the supplied
    [additional_context], or the placeholder "None provided" when
    [additional_context] is absent. *)
Theorem prompt_deterministic_and_complete payload :
  valid payload ->
  exists prompt,
    (forall url upstream,
        snd (run (generate_unit_tests url upstream payload)) =
        [generation_call url prompt])
    /\ Contains prompt (strip (pattern_name payload))
    /\ Contains prompt (strip (pattern_content payload))
    /\ Contains prompt (strip (file_name payload))
    /\ Contains prompt (strip (source_code payload))
    /\ match additional_context payload with
       | Some c => Contains prompt c
       | None => Contains prompt (lit "None provided")
       end.
Proof.
  intros Hv. exists (prompt_of payload). split.
  - intros url upstream. now apply run_calls_once.
  - unfold prompt_of.
    destruct (prompt_template_fields
                (strip (pattern_name payload))
                (strip (pattern_content payload))
                (strip (file_name payload))
                (strip (source_code payload))
                (context_or_placeholder (additional_context payload)))
      as (H1 & H2 & H3 & H4 & H5).
    repeat split; try assumption.
    destruct (additional_context payload) as [[|c0 c]|]; simpl in *.
    + apply Contains_nil.
    + exact H5.
    + exact H5.
Qed.

(** C6, as the code has it.  For a valid request the prompt sent is the
    template filled with the four required fields trimmed, and with
    [additional_context] as supplied (not trimmed), or the placeholder
    when it is absent or empty.  Whitespace around the required fields
    therefore never reaches the upstream: two requests whose required
    fields agree after trimming, with the same [additional_context],
    are handled alike. *)
Theorem prompt_embeds_trimmed_required_fields url upstream payload :
  valid payload ->
  snd (run (generate_unit_tests url upstream payload)) =
  [generation_call url
     (prompt_template
        (strip (pattern_name payload)) (strip (pattern_content payload))
        (strip (file_name payload)) (strip (source_code payload))
        (match additional_context payload with
         | Some (c0 :: c) => c0 :: c
         | _ => lit "None provided"
         end))]
  /\ forall payload',
      strip (pattern_name payload') = strip (pattern_name payload) ->
      strip (pattern_content payload') = strip (pattern_content payload) ->
      strip (file_name payload') = strip (file_name payload) ->
      strip (source_code payload') = strip (source_code payload) ->
      additional_context payload' = additional_context payload ->
      run (generate_unit_tests url upstream payload') =
      run (generate_unit_tests url upstream payload).
Proof.
  intros Hv. split.
  - rewrite run_calls_once by assumption. unfold prompt_of.
    now destruct (additional_context payload) as [[|c0 c]|].
  - intros payload' H1 H2 H3 H4 H5.
    unfold run, generate_unit_tests. now rewrite H1, H2, H3, H4, H5.
Qed.

(** C9. For a valid request, when the upstream answers a status other
    than 200 and the body's error field is null, or is an object whose
    message is absent, null or the empty string, the detail of the
    failure is "Upstream error", under the upstream status. *)
Theorem upstream_error_fallback url upstream payload r d err :
  valid payload ->
  upstream (generation_call url (prompt_of payload)) = inr r ->
  status_code r <> 200%Z ->
  decoded r = Some (JDict d) ->
  lookup d (lit "error") = Some err ->
  (err = JNull
   \/ exists e, err = JDict e
                /\ (lookup e (lit "message") = None
                    \/ lookup e (lit "message") = Some JNull
                    \/ lookup e (lit "message") = Some (JStr []))) ->
  fst (run (generate_unit_tests url upstream payload)) =
  inl (HTTPException (status_code r) (JStr (lit "Upstream error"))).
Proof.
  intros Hv Hu Hs Hd He Hshape. unfold run.
  rewrite (generate_non_success _ _ _ _ r (JDict d) Hv Hu Hd Hs).
  rewrite upstream_message_dict, He.
  destruct Hshape as [->|(e & -> & Hm)]; [reflexivity|].
  destruct (truthy (JDict e)); [|reflexivity]. simpl.
  destruct Hm as [Hm|[Hm|Hm]]; now rewrite Hm.
Qed.

(** ** POST /upload-source: the claims *)

Lemma endswith_nonempty s suffix :
  suffix <> [] -> endswith s suffix = true -> s <> [].
Proof.
  intros Hs He ->. unfold endswith in He. simpl in He.
  destruct (rev suffix) eqn:E; [|discriminate].
  apply (f_equal (@rev char)) in E. rewrite rev_involutive in E. now apply Hs.
Qed.

(** C7. A request to /upload-source whose [source_code] and [file_name]
    are non-empty after trimming, and whose trimmed [file_name] does not
    end with ".go", fails with [HTTPException(400)] and a detail that
    names the suffix. *)
Theorem upload_source_rejects_wrong_suffix payload :
  blank (SourceCodeUpload.source_code payload) = false ->
  blank (SourceCodeUpload.file_name payload) = false ->
  endswith (strip (SourceCodeUpload.file_name payload)) (lit ".go") = false ->
  exists detail,
    upload_source payload = inl (HTTPException 400 (JStr detail))
    /\ detail = lit "File must be a Go source file (.go)"
    /\ Contains detail (lit ".go").
Proof.
  intros Hs Hf He. exists (lit "File must be a Go source file (.go)").
  unfold upload_source. rewrite !str_truthy_strip, Hs, Hf, He. simpl.
  repeat split.
  exists (lit "File must be a Go source file ("), (lit ")"). reflexivity.
Qed.

(** C10. The checks of /upload-source run in order: the trimmed
    [source_code] first, then the trimmed [file_name], then the suffix
    of the trimmed [file_name].  So a [file_name] of whitespace only is
    answered "File name is required", and a name ending in ".go" with
    whitespace around it is accepted, under its trimmed form. *)
Theorem upload_source_validation_order payload :
  (blank (SourceCodeUpload.source_code payload) = true ->
   upload_source payload =
   inl (HTTPException 400 (JStr (lit "Source code is required"))))
  /\
  (blank (SourceCodeUpload.source_code payload) = false ->
   blank (SourceCodeUpload.file_name payload) = true ->
   upload_source payload =
   inl (HTTPException 400 (JStr (lit "File name is required"))))
  /\
  (blank (SourceCodeUpload.source_code payload) = false ->
   blank (SourceCodeUpload.file_name payload) = false ->
   endswith (strip (SourceCodeUpload.file_name payload)) (lit ".go") = false ->
   upload_source payload =
   inl (HTTPException 400 (JStr (lit "File must be a Go source file (.go)"))))
  /\
  (forall ws1 name ws2,
      blank (SourceCodeUpload.source_code payload) = false ->
      SourceCodeUpload.file_name payload = ws1 ++ name ++ ws2 ->
      blank ws1 = true -> blank ws2 = true ->
      strip name = name -> endswith name (lit ".go") = true ->
      upload_source payload =
      inr {| UploadSourceResult.status := lit "success";
             UploadSourceResult.message :=
               lit "Source file '" ++ name ++ lit "' uploaded successfully";
             UploadSourceResult.file_name := name;
             UploadSourceResult.package_name :=
               SourceCodeUpload.package_name payload |}).
Proof.
  unfold upload_source. rewrite !str_truthy_strip. repeat split.
  - intros ->. reflexivity.
  - intros -> ->. reflexivity.
  - intros -> -> ->. reflexivity.
  - intros ws1 name ws2 -> Hn H1 H2 Hfix He. simpl.
    assert (Hstrip : strip (SourceCodeUpload.file_name payload) = name).
    { rewrite Hn, strip_surround by assumption. exact Hfix. }
    assert (Hblank : blank (SourceCodeUpload.file_name payload) = false).
    { destruct (blank (SourceCodeUpload.file_name payload)) eqn:B;
        [|reflexivity].
      apply strip_nil_iff in B. rewrite Hstrip in B.
      exfalso. revert B. apply (endswith_nonempty _ (lit ".go"));
        [discriminate | assumption]. }
    rewrite Hblank, Hstrip, He. reflexivity.
Qed.

(** ** Scenarios *)

(** C2, counterexample.  With whitespace around [pattern_name] and
    [file_name], the response echoes neither as supplied. *)
Lemma echo_not_as_supplied :
  exists resp,
    fst (run (generate_unit_tests (lit "URL")
                (answering 200 scenario_payload) padded_request)) = inr resp
    /\ UTGenerationResponse.pattern_used resp = lit "N"
    /\ UTGenerationResponse.pattern_used resp <> pattern_name padded_request
    /\ UTGenerationResponse.file_analyzed resp = lit "a.go"
    /\ UTGenerationResponse.file_analyzed resp <> file_name padded_request.
Proof.
  eexists. split; [vm_compute; reflexivity|].
  repeat split; vm_compute; discriminate.
Qed.

(** C3, counterexample.  An empty message in the error object is not
    relayed: the fallback replaces it.  And a body without any error
    message that is not a JSON object gets no fallback: the handler
    raises [AttributeError], which the client sees as a 500. *)
Lemma upstream_message_not_always_relayed :
  (let out := fst (run (generate_unit_tests (lit "URL")
                 (answering 503
                    (JDict [(lit "error", JDict [(lit "message", JStr [])])]))
                 scenario_request)) in
   out = inl (HTTPException 503 (JStr (lit "Upstream error")))
   /\ out <> inl (HTTPException 503 (JStr [])))
  /\
  (let out := fst (run (generate_unit_tests (lit "URL")
                 (answering 503 (JList [])) scenario_request)) in
   out = inl AttributeError
   /\ out <> inl (HTTPException 503 (JStr (lit "Upstream error")))
   /\ http_status out = 500%Z).
Proof.
  split; cbv zeta; repeat split; try (vm_compute; reflexivity);
    vm_compute; discriminate.
Qed.

(** C6, counterexample.  Whitespace around [additional_context] reaches
    the prompt: what is sent is not the template filled with the trimmed
    context. *)
Lemma additional_context_not_trimmed :
  let sent := snd (run (generate_unit_tests (lit "URL")
                     (answering 200 scenario_payload) padded_request)) in
  sent = [generation_call (lit "URL")
            (prompt_template (lit "N") (lit "P") (lit "a.go") (lit "S")
               (lit " ctx "))]
  /\ sent <> [generation_call (lit "URL")
                (prompt_template (lit "N") (lit "P") (lit "a.go") (lit "S")
                   (strip (lit " ctx ")))].
Proof.
  cbv zeta. split; [vm_compute; reflexivity | vm_compute; discriminate].
Qed.

(** ** The theorems at concrete inputs *)

Lemma scenario_request_valid : valid scenario_request.
Proof. repeat split. Qed.

Lemma padded_request_valid : valid padded_request.
Proof. repeat split. Qed.

(** A [pattern_name] of whitespace only: rejected, nothing sent. *)
Lemma generate_rejects_blank_fields_witness :
  blank (pattern_name blank_name_request) = true
  /\ snd (run (generate_unit_tests (lit "URL")
                 (answering 200 scenario_payload) blank_name_request)) = [].
Proof.
  assert (H : blank (pattern_name blank_name_request) = true)
    by reflexivity.
  split; [exact H|].
  apply (generate_rejects_blank_fields (lit "URL")
           (answering 200 scenario_payload) blank_name_request []).
  right; right; right; exact H.
Defined.

(** The scenario of the specification: text "  test code  " comes back
    as "test code", with "N" and "a.go". *)
Lemma generate_success_response_witness :
  fst (run (generate_unit_tests (lit "URL")
              (answering 200 scenario_payload) scenario_request)) =
  inr {| UTGenerationResponse.unit_tests := lit "test code";
         UTGenerationResponse.pattern_used := lit "N";
         UTGenerationResponse.file_analyzed := lit "a.go" |}.
Proof.
  exact (generate_success_response (lit "URL")
           (answering 200 scenario_payload) scenario_request
           {| status_code := 200; decoded := Some scenario_payload |}
           scenario_payload (lit "  test code  ")
           scenario_request_valid eq_refl eq_refl eq_refl eq_refl).
Defined.

(** A 429 with a message is relayed; a 500 with an empty object gets the
    fallback. *)
Lemma upstream_error_relayed_witness :
  fst (run (generate_unit_tests (lit "URL")
              (answering 429 quota_payload) scenario_request)) =
  inl (HTTPException 429 (JStr (lit "quota exceeded")))
  /\
  fst (run (generate_unit_tests (lit "URL")
              (answering 500 (JDict [])) scenario_request)) =
  inl (HTTPException 500 (JStr (lit "Upstream error"))).
Proof.
  split.
  - apply (proj1 (upstream_error_relayed (lit "URL")
                    (answering 429 quota_payload) scenario_request
                    {| status_code := 429; decoded := Some quota_payload |}
                    [(lit "error",
                      JDict [(lit "message", JStr (lit "quota exceeded"))])]
                    scenario_request_valid eq_refl
                    ltac:(discriminate) eq_refl)
             [(lit "message", JStr (lit "quota exceeded"))]
             (JStr (lit "quota exceeded")));
      reflexivity.
  - apply (proj2 (upstream_error_relayed (lit "URL")
                    (answering 500 (JDict [])) scenario_request
                    {| status_code := 500; decoded := Some (JDict []) |}
                    [] scenario_request_valid eq_refl
                    ltac:(discriminate) eq_refl)).
    left; reflexivity.
Defined.

(** A success body of the wrong shape whose dump is longer than 800
    characters. *)
Lemma malformed_success_is_502_witness :
  List.length (json_dumps long_payload) = 1002
  /\ exists diagnostic,
      fst (run (generate_unit_tests (lit "URL")
                  (answering 200 long_payload) scenario_request)) =
      inl (HTTPException 502
             (JStr (lit "Unexpected API response: " ++ diagnostic)))
      /\ diagnostic = slice_to 800 (json_dumps long_payload)
      /\ List.length diagnostic <= 800
      /\ exists rest, json_dumps long_payload = diagnostic ++ rest.
Proof.
  split; [vm_compute; reflexivity|].
  apply (malformed_success_is_502 (lit "URL")
           (answering 200 long_payload) scenario_request
           {| status_code := 200; decoded := Some long_payload |}
           long_payload scenario_request_valid);
    reflexivity.
Defined.

(** The prompt of the padded request holds the trimmed required fields
    and the context as supplied. *)
Lemma prompt_deterministic_and_complete_witness :
  exists prompt,
    (forall url upstream,
        snd (run (generate_unit_tests url upstream padded_request)) =
        [generation_call url prompt])
    /\ Contains prompt (lit "N")
    /\ Contains prompt (lit "P")
    /\ Contains prompt (lit "a.go")
    /\ Contains prompt (lit "S")
    /\ Contains prompt (lit " ctx ").
Proof.
  exact (prompt_deterministic_and_complete padded_request
           padded_request_valid).
Defined.

(** The padded request and its trimmed form are handled alike. *)
Lemma prompt_embeds_trimmed_required_fields_witness :
  run (generate_unit_tests (lit "URL")
         (answering 200 scenario_payload)
         {| pattern_content := lit "P";
            source_code := lit "S";
            file_name := lit "a.go";
            pattern_name := lit "N";
            additional_context := Some (lit " ctx ") |}) =
  run (generate_unit_tests (lit "URL")
         (answering 200 scenario_payload) padded_request).
Proof.
  apply (proj2 (prompt_embeds_trimmed_required_fields (lit "URL")
                  (answering 200 scenario_payload) padded_request
                  padded_request_valid));
    reflexivity.
Defined.

(** An empty message, and a null error. *)
Lemma upstream_error_fallback_witness :
  fst (run (generate_unit_tests (lit "URL")
              (answering 503 empty_message_payload) scenario_request)) =
  inl (HTTPException 503 (JStr (lit "Upstream error")))
  /\
  fst (run (generate_unit_tests (lit "URL")
              (answering 500 (JDict [(lit "error", JNull)]))
              scenario_request)) =
  inl (HTTPException 500 (JStr (lit "Upstream error"))).
Proof.
  split.
  - apply (upstream_error_fallback (lit "URL")
             (answering 503 empty_message_payload) scenario_request
             {| status_code := 503; decoded := Some empty_message_payload |}
             [(lit "error", JDict [(lit "code", JInt 503);
                                   (lit "message", JStr [])])]
             (JDict [(lit "code", JInt 503); (lit "message", JStr [])])
             scenario_request_valid eq_refl ltac:(discriminate)
             eq_refl eq_refl).
    right. eexists. split; [reflexivity|]. right; right; reflexivity.
  - apply (upstream_error_fallback (lit "URL")
             (answering 500 (JDict [(lit "error", JNull)])) scenario_request
             {| status_code := 500;
                decoded := Some (JDict [(lit "error", JNull)]) |}
             [(lit "error", JNull)] JNull
             scenario_request_valid eq_refl ltac:(discriminate)
             eq_refl eq_refl).
    left; reflexivity.
Defined.

(** The scenario of the specification: [a.txt] is refused. *)
Lemma upload_source_rejects_wrong_suffix_witness :
  exists detail,
    upload_source (upload (lit "package a") (lit "a.txt")) =
    inl (HTTPException 400 (JStr detail))
    /\ detail = lit "File must be a Go source file (.go)"
    /\ Contains detail (lit ".go").
Proof.
  apply (upload_source_rejects_wrong_suffix
           (upload (lit "package a") (lit "a.txt")));
    reflexivity.
Defined.

(** Blank source first, blank file name second, and a padded [.go] name
    accepted. *)
Lemma upload_source_validation_order_witness :
  upload_source (upload (lit "  ") (lit "a.txt")) =
  inl (HTTPException 400 (JStr (lit "Source code is required")))
  /\
  upload_source (upload (lit "package a") (lit "   ")) =
  inl (HTTPException 400 (JStr (lit "File name is required")))
  /\
  upload_source (upload (lit "package a") (lit "  a.go  ")) =
  inr {| UploadSourceResult.status := lit "success";
         UploadSourceResult.message :=
           lit "Source file 'a.go' uploaded successfully";
         UploadSourceResult.file_name := lit "a.go";
         UploadSourceResult.package_name := None |}.
Proof.
  split; [|split].
  - apply (proj1 (upload_source_validation_order
                    (upload (lit "  ") (lit "a.txt")))).
    reflexivity.
  - apply (proj1 (proj2 (upload_source_validation_order
                           (upload (lit "package a") (lit "   "))))).
    + reflexivity.
    + reflexivity.
  - apply (proj2 (proj2 (proj2 (upload_source_validation_order
                    (upload (lit "package a") (lit "  a.go  ")))))
             (lit "  ") (lit "a.go") (lit "  "));
      reflexivity.
Defined.

(** ** Further lemmas on the primitives *)

Lemma startswith_length s p :
  startswith s p = true -> List.length p <= List.length s.
Proof.
  revert s; induction p as [|c p IH]; intros s; simpl; [lia|].
  destruct s as [|a s]; [discriminate|].
  intros H. apply andb_true_iff in H as [_ H]. apply IH in H. simpl. lia.
Qed.

Lemma endswith_length s suffix :
  endswith s suffix = true -> List.length suffix <= List.length s.
Proof.
  unfold endswith. intros H. apply startswith_length in H.
  now rewrite !length_rev in H.
Qed.

Lemma endswith_app s suffix : endswith (s ++ suffix) suffix = true.
Proof.
  unfold endswith. rewrite rev_app_distr.
  induction (rev suffix) as [|c r IH]; simpl; [reflexivity|].
  now rewrite N.eqb_refl, IH.
Qed.

Lemma blank_false_strip s : blank s = false <-> strip s <> [].
Proof.
  rewrite strip_nil_iff. destruct (blank s); split; congruence.
Qed.

Lemma split_cons sep s : exists p ps, split sep s = p :: ps.
Proof.
  destruct s as [|c s]; simpl; [eauto|].
  destruct (c =? sep)%N; [eauto|].
  destruct (split sep s); eauto.
Qed.

Lemma split_join sep s : join [sep] (split sep s) = s.
Proof.
  induction s as [|c s IH]; [reflexivity|]. simpl.
  destruct (split_cons sep s) as (p & ps & E). rewrite E in *.
  destruct (N.eqb_spec c sep) as [->|Hc].
  - change (join [sep] ([] :: p :: ps)) with ([sep] ++ join [sep] (p :: ps)).
    now rewrite IH.
  - destruct ps as [|q ps]; simpl in *; now rewrite <- IH.
Qed.

Lemma split_no_sep sep s p : In p (split sep s) -> ~ In sep p.
Proof.
  revert p; induction s as [|c s IH]; simpl; intros p.
  - intros [<-|[]] [].
  - destruct (N.eqb_spec c sep) as [->|Hc].
    + intros [<-|H]; [intros []|auto].
    + destruct (split_cons sep s) as (q & qs & E). rewrite E in *.
      intros [<-|H].
      * intros [Heq|Hin]; [congruence|].
        apply (IH q); [now left | assumption].
      * apply IH. now right.
Qed.

Lemma split_length sep s :
  List.length (split sep s) = S (count_occ N.eq_dec s sep).
Proof.
  induction s as [|c s IH]; [reflexivity|]. simpl.
  destruct (N.eqb_spec c sep) as [->|Hc].
  - destruct (N.eq_dec sep sep); [|congruence]. simpl. now rewrite IH.
  - destruct (N.eq_dec c sep); [congruence|].
    destruct (split_cons sep s) as (q & qs & E). rewrite E in *.
    exact IH.
Qed.

(** ** Further lemmas on the handlers *)

Lemma valid_or_blank payload :
  valid payload \/
  (blank (pattern_content payload) = true \/
   blank (source_code payload) = true \/
   blank (file_name payload) = true \/
   blank (pattern_name payload) = true).
Proof.
  unfold valid.
  destruct (blank (pattern_content payload)); [tauto|].
  destruct (blank (source_code payload)); [tauto|].
  destruct (blank (file_name payload)); [tauto|].
  destruct (blank (pattern_name payload)); tauto.
Qed.

Lemma blank_not_valid payload :
  blank (pattern_content payload) = true \/
  blank (source_code payload) = true \/
  blank (file_name payload) = true \/
  blank (pattern_name payload) = true -> ~ valid payload.
Proof. unfold valid. intros [H|[H|[H|H]]] (H1 & H2 & H3 & H4); congruence. Qed.

(** A response is returned on one path only. *)
Lemma generate_success_inv url upstream payload resp :
  fst (run (generate_unit_tests url upstream payload)) = inr resp ->
  valid payload /\
  exists r data T,
    upstream (generation_call url (prompt_of payload)) = inr r
    /\ status_code r = 200%Z
    /\ decoded r = Some data
    /\ nested_text data = Some (JStr T)
    /\ resp = {| UTGenerationResponse.unit_tests := strip T;
                 UTGenerationResponse.pattern_used := strip (pattern_name payload);
                 UTGenerationResponse.file_analyzed := strip (file_name payload) |}.
Proof.
  unfold run. intros H.
  destruct (valid_or_blank payload) as [Hv|Hb].
  2:{ rewrite generate_invalid in H by assumption. discriminate. }
  split; [assumption|].
  destruct (upstream (generation_call url (prompt_of payload)))
    as [e|r] eqn:Hu.
  { rewrite (generate_transport_failure _ _ _ _ e Hv Hu) in H. discriminate. }
  destruct (decoded r) as [data|] eqn:Hd.
  2:{ rewrite (generate_undecodable _ _ _ _ r Hv Hu Hd) in H. discriminate. }
  destruct (Z.eq_dec (status_code r) 200) as [Hs|Hs].
  - rewrite (generate_success _ _ _ _ r data Hv Hu Hd Hs) in H. simpl in H.
    destruct (extract_text data) as [e|text] eqn:He; [discriminate|].
    destruct (extract_text_inv _ _ He) as (T & Ht & ->).
    injection H as <-. exists r, data, T. auto.
  - rewrite (generate_non_success _ _ _ _ r data Hv Hu Hd Hs) in H.
    simpl in H. destruct (upstream_message data); discriminate.
Qed.

Lemma upload_source_inv payload res :
  upload_source payload = inr res ->
  blank (SourceCodeUpload.source_code payload) = false
  /\ blank (SourceCodeUpload.file_name payload) = false
  /\ endswith (strip (SourceCodeUpload.file_name payload)) (lit ".go") = true
  /\ res = {| UploadSourceResult.status := lit "success";
              UploadSourceResult.message :=
                lit "Source file '"
                ++ strip (SourceCodeUpload.file_name payload)
                ++ lit "' uploaded successfully";
              UploadSourceResult.file_name :=
                strip (SourceCodeUpload.file_name payload);
              UploadSourceResult.package_name :=
                SourceCodeUpload.package_name payload |}.
Proof.
  unfold upload_source. rewrite !str_truthy_strip.
  destruct (blank (SourceCodeUpload.source_code payload)); [discriminate|].
  destruct (blank (SourceCodeUpload.file_name payload)); [discriminate|].
  destruct (endswith _ _); [|discriminate]. simpl.
  intros [= <-]. auto.
Qed.

Lemma upload_source_accepted payload :
  blank (SourceCodeUpload.source_code payload) = false ->
  endswith (strip (SourceCodeUpload.file_name payload)) (lit ".go") = true ->
  upload_source payload =
  inr {| UploadSourceResult.status := lit "success";
         UploadSourceResult.message :=
           lit "Source file '"
           ++ strip (SourceCodeUpload.file_name payload)
           ++ lit "' uploaded successfully";
         UploadSourceResult.file_name :=
           strip (SourceCodeUpload.file_name payload);
         UploadSourceResult.package_name :=
           SourceCodeUpload.package_name payload |}.
Proof.
  intros Hs He. unfold upload_source. rewrite !str_truthy_strip, Hs, He.
  assert (Hf : blank (SourceCodeUpload.file_name payload) = false).
  { apply blank_false_strip.
    apply (endswith_nonempty _ (lit ".go")); [discriminate | assumption]. }
  now rewrite Hf.
Qed.

(** ** POST /upload-pattern: properties *)

(** X1. [upload_pattern] accepts a request exactly when both the pattern
    content and the pattern name are non-empty after trimming; what it
    returns then holds the trimmed name, in the message too, and the
    description untouched. *)
Theorem upload_pattern_accepts_iff payload res :
  upload_pattern payload = inr res <->
  blank (PatternUpload.pattern_content payload) = false
  /\ blank (PatternUpload.pattern_name payload) = false
  /\ res = {| UploadPatternResult.status := lit "success";
              UploadPatternResult.message :=
                lit "Pattern '"
                ++ strip (PatternUpload.pattern_name payload)
                ++ lit "' uploaded successfully";
              UploadPatternResult.pattern_name :=
                strip (PatternUpload.pattern_name payload);
              UploadPatternResult.description :=
                PatternUpload.description payload |}.
Proof.
  unfold upload_pattern. rewrite !str_truthy_strip.
  destruct (blank (PatternUpload.pattern_content payload));
    destruct (blank (PatternUpload.pattern_name payload)); simpl;
    split; try discriminate; try (intros (? & ? & ?); discriminate).
  - intros [= <-]. auto.
  - intros (_ & _ & ->). reflexivity.
Qed.

(** X2. Every failure of [upload_pattern] is an [HTTPException(400)]:
    "Pattern content is required" when the content is blank, whatever
    the name is, and "Pattern name is required" when only the name is
    blank. *)
Theorem upload_pattern_rejections payload e :
  upload_pattern payload = inl e ->
  (blank (PatternUpload.pattern_content payload) = true
   /\ e = HTTPException 400 (JStr (lit "Pattern content is required")))
  \/
  (blank (PatternUpload.pattern_content payload) = false
   /\ blank (PatternUpload.pattern_name payload) = true
   /\ e = HTTPException 400 (JStr (lit "Pattern name is required"))).
Proof.
  unfold upload_pattern. rewrite !str_truthy_strip.
  destruct (blank (PatternUpload.pattern_content payload));
    [|destruct (blank (PatternUpload.pattern_name payload))]; simpl;
    intros [= <-]; auto.
Qed.

(** Both fields blank: the content is the one reported. *)
Lemma upload_pattern_rejections_witness :
  exists e,
    upload_pattern (pattern_upload (lit "  ") (lit " ")) = inl e
    /\ ((blank (lit "  ") = true
         /\ e = HTTPException 400 (JStr (lit "Pattern content is required")))
        \/
        (blank (lit "  ") = false
         /\ blank (lit " ") = true
         /\ e = HTTPException 400 (JStr (lit "Pattern name is required")))).
Proof.
  eexists. split; [reflexivity|].
  exact (upload_pattern_rejections (pattern_upload (lit "  ") (lit " "))
           _ eq_refl).
Defined.

(** ** POST /upload-source: properties *)

(** X3. [upload_source] accepts a request exactly when the source code
    is non-empty after trimming and the trimmed file name ends with
    ".go"; what it returns then holds the trimmed file name and the
    package name untouched. *)
Theorem upload_source_accepts_iff payload res :
  upload_source payload = inr res <->
  blank (SourceCodeUpload.source_code payload) = false
  /\ endswith (strip (SourceCodeUpload.file_name payload)) (lit ".go") = true
  /\ res = {| UploadSourceResult.status := lit "success";
              UploadSourceResult.message :=
                lit "Source file '"
                ++ strip (SourceCodeUpload.file_name payload)
                ++ lit "' uploaded successfully";
              UploadSourceResult.file_name :=
                strip (SourceCodeUpload.file_name payload);
              UploadSourceResult.package_name :=
                SourceCodeUpload.package_name payload |}.
Proof.
  split.
  - intros H. apply upload_source_inv in H. tauto.
  - intros (Hs & He & ->). now apply upload_source_accepted.
Qed.

(** X4. The file name [upload_source] returns is in normal form: it has
    no surrounding whitespace, ends with ".go", has three characters at
    least, and sending it back with the same source gives the same
    answer. *)
Theorem upload_source_result_name payload res :
  upload_source payload = inr res ->
  strip (UploadSourceResult.file_name res) = UploadSourceResult.file_name res
  /\ endswith (UploadSourceResult.file_name res) (lit ".go") = true
  /\ 3 <= List.length (UploadSourceResult.file_name res)
  /\ upload_source
       {| SourceCodeUpload.source_code := SourceCodeUpload.source_code payload;
          SourceCodeUpload.file_name := UploadSourceResult.file_name res;
          SourceCodeUpload.package_name :=
            SourceCodeUpload.package_name payload |} = inr res.
Proof.
  intros H. apply upload_source_inv in H as (Hs & _ & He & ->). simpl.
  repeat split.
  - apply strip_idem.
  - exact He.
  - apply endswith_length in He. exact He.
  - rewrite upload_source_accepted; simpl; rewrite ?strip_idem; auto.
Qed.

(** A padded name comes back trimmed and is accepted again. *)
Lemma upload_source_result_name_witness :
  exists res,
    upload_source (upload (lit "package a") (lit "  a.go  ")) = inr res
    /\ strip (UploadSourceResult.file_name res) =
       UploadSourceResult.file_name res
    /\ endswith (UploadSourceResult.file_name res) (lit ".go") = true
    /\ 3 <= List.length (UploadSourceResult.file_name res)
    /\ upload_source
         (upload (lit "package a") (UploadSourceResult.file_name res)) =
       inr res.
Proof.
  eexists. split; [reflexivity|].
  exact (upload_source_result_name
           (upload (lit "package a") (lit "  a.go  ")) _ eq_refl).
Defined.

(** ** POST /generate-ut: properties *)

(** X5. [generate_unit_tests] returns a response on one path only: the
    request is valid, the upstream answers 200 with a JSON body, and the
    body holds a string at candidates[0].content.parts[0].text.  The
    response is then that text trimmed with the trimmed pattern and file
    names. *)
Theorem generate_succeeds_iff url upstream payload resp :
  fst (run (generate_unit_tests url upstream payload)) = inr resp <->
  valid payload /\
  exists r data T,
    upstream (generation_call url (prompt_of payload)) = inr r
    /\ status_code r = 200%Z
    /\ decoded r = Some data
    /\ nested_text data = Some (JStr T)
    /\ resp = {| UTGenerationResponse.unit_tests := strip T;
                 UTGenerationResponse.pattern_used := strip (pattern_name payload);
                 UTGenerationResponse.file_analyzed := strip (file_name payload) |}.
Proof.
  split; [apply generate_success_inv|].
  intros (Hv & r & data & T & Hu & Hs & Hd & Ht & ->). unfold run.
  rewrite (generate_success _ _ _ _ r data Hv Hu Hd Hs).
  now rewrite (extract_text_found _ _ Ht).
Qed.

(** X6. Whatever the request and whatever the upstream does, the handler
    makes one outbound call when the request is valid and none when it
    is not: a failure is never retried. *)
Theorem generate_calls_at_most_once url upstream payload :
  let sent := snd (run (generate_unit_tests url upstream payload)) in
  (valid payload /\ sent = [generation_call url (prompt_of payload)])
  \/ (~ valid payload /\ sent = []).
Proof.
  cbv zeta. destruct (valid_or_blank payload) as [Hv|Hb].
  - left. split; [assumption|]. now apply run_calls_once.
  - right. split; [now apply blank_not_valid|].
    unfold run. now rewrite generate_invalid.
Qed.

(** X7. When the transport raises (a timeout or a network error), the
    handler does not turn it into an [HTTPException]: the exception of
    the transport leaves the handler as it is, which a client sees as a
    500, after the one call. *)
Theorem generate_transport_failure_propagates url upstream payload e :
  valid payload ->
  upstream (generation_call url (prompt_of payload)) = inl e ->
  let out := run (generate_unit_tests url upstream payload) in
  fst out = inl (HTTPXError e)
  /\ http_status (fst out) = 500%Z
  /\ snd out = [generation_call url (prompt_of payload)].
Proof.
  intros Hv Hu. cbv zeta. unfold run.
  rewrite (generate_transport_failure _ _ _ _ e Hv Hu). repeat split.
Qed.

(** The upstream that never answers. *)
Lemma generate_transport_failure_propagates_witness :
  fst (run (generate_unit_tests (lit "URL") timing_out scenario_request)) =
  inl (HTTPXError TimeoutException)
  /\ http_status
       (fst (run (generate_unit_tests (lit "URL") timing_out
                    scenario_request))) = 500%Z
  /\ snd (run (generate_unit_tests (lit "URL") timing_out scenario_request)) =
     [generation_call (lit "URL") (prompt_of scenario_request)].
Proof.
  exact (generate_transport_failure_propagates (lit "URL") timing_out
           scenario_request TimeoutException scenario_request_valid eq_refl).
Defined.

(** X8. The body is decoded before the status is looked at: when
    [r.json()] raises on the upstream's body (malformed JSON, bytes that
    are not UTF-8, an oversized integer), the handler lets that
    exception through whatever the status was.  No [HTTPException] is
    raised, so the upstream status is not relayed and the client sees a
    500, after the one call. *)
Theorem generate_undecodable_body url upstream payload r :
  valid payload ->
  upstream (generation_call url (prompt_of payload)) = inr r ->
  decoded r = None ->
  let out := run (generate_unit_tests url upstream payload) in
  fst out = inl ResponseJSONError
  /\ (forall status detail, fst out <> inl (HTTPException status detail))
  /\ http_status (fst out) = 500%Z
  /\ snd out = [generation_call url (prompt_of payload)].
Proof.
  intros Hv Hu Hd. cbv zeta. unfold run.
  rewrite (generate_undecodable _ _ _ _ r Hv Hu Hd).
  repeat split. intros status detail; discriminate.
Qed.

(** A 503 whose body is an HTML page. *)
Lemma generate_undecodable_body_witness :
  fst (run (generate_unit_tests (lit "URL") (answering_html 503)
              scenario_request)) = inl ResponseJSONError
  /\ (forall status detail,
        fst (run (generate_unit_tests (lit "URL") (answering_html 503)
                    scenario_request)) <> inl (HTTPException status detail))
  /\ http_status
       (fst (run (generate_unit_tests (lit "URL") (answering_html 503)
                    scenario_request))) = 500%Z
  /\ snd (run (generate_unit_tests (lit "URL") (answering_html 503)
                 scenario_request)) =
     [generation_call (lit "URL") (prompt_of scenario_request)].
Proof.
  exact (generate_undecodable_body (lit "URL") (answering_html 503)
           scenario_request {| status_code := 503; decoded := None |}
           scenario_request_valid eq_refl eq_refl).
Defined.

(** X9. On a status other than 200, a body that is not a JSON object, or
    whose error field is truthy without being an object (a string, a
    number, a list), makes the handler raise [AttributeError]: neither
    the upstream status nor the fallback message reaches the client,
    who sees a 500. *)
Theorem generate_error_shape_crash url upstream payload r data :
  valid payload ->
  upstream (generation_call url (prompt_of payload)) = inr r ->
  status_code r <> 200%Z ->
  decoded r = Some data ->
  ((forall d, data <> JDict d)
   \/ exists d err,
        data = JDict d /\ lookup d (lit "error") = Some err
        /\ truthy err = true /\ forall e, err <> JDict e) ->
  fst (run (generate_unit_tests url upstream payload)) = inl AttributeError
  /\ http_status (fst (run (generate_unit_tests url upstream payload))) = 500%Z.
Proof.
  intros Hv Hu Hs Hd Hshape. unfold run.
  rewrite (generate_non_success _ _ _ _ r data Hv Hu Hd Hs).
  assert (Hm : upstream_message data = inl AttributeError).
  { destruct Hshape as [Hn|(d & err & -> & He & Ht & Hn)].
    - now apply upstream_message_not_dict.
    - rewrite upstream_message_dict, He, Ht.
      destruct err; try reflexivity. now destruct (Hn d0). }
  rewrite Hm. split; reflexivity.
Qed.

(** A 401 whose error is a plain string. *)
Lemma generate_error_shape_crash_witness :
  fst (run (generate_unit_tests (lit "URL")
              (answering 401 (JDict [(lit "error", JStr (lit "denied"))]))
              scenario_request)) = inl AttributeError
  /\ http_status
       (fst (run (generate_unit_tests (lit "URL")
                    (answering 401 (JDict [(lit "error", JStr (lit "denied"))]))
                    scenario_request))) = 500%Z.
Proof.
  apply (generate_error_shape_crash (lit "URL")
           (answering 401 (JDict [(lit "error", JStr (lit "denied"))]))
           scenario_request
           {| status_code := 401;
              decoded := Some (JDict [(lit "error", JStr (lit "denied"))]) |}
           (JDict [(lit "error", JStr (lit "denied"))])
           scenario_request_valid eq_refl ltac:(discriminate) eq_refl).
  right. exists [(lit "error", JStr (lit "denied"))], (JStr (lit "denied")).
  repeat split. intros e; discriminate.
Defined.

(** X10. On a 200, any body without a string at
    candidates[0].content.parts[0].text (the text may be there and be a
    number, null or a list) gives [HTTPException(502)].  The whole detail
    has 825 characters at most, and a body whose dump has 800 characters
    or fewer is reported in full. *)
Theorem generate_unusable_text_is_502 url upstream payload r data :
  valid payload ->
  upstream (generation_call url (prompt_of payload)) = inr r ->
  status_code r = 200%Z ->
  decoded r = Some data ->
  (forall T, nested_text data <> Some (JStr T)) ->
  exists detail,
    fst (run (generate_unit_tests url upstream payload)) =
    inl (HTTPException 502 (JStr detail))
    /\ List.length detail <= 825
    /\ (List.length (json_dumps data) <= 800 ->
        detail = lit "Unexpected API response: " ++ json_dumps data).
Proof.
  intros Hv Hu Hs Hd Hn.
  exists (lit "Unexpected API response: " ++ slice_to 800 (json_dumps data)).
  unfold run. rewrite (generate_success _ _ _ _ r data Hv Hu Hd Hs).
  destruct (extract_text data) as [e|text] eqn:He.
  - repeat split.
    + rewrite length_app.
      pose proof (slice_to_length 800 (json_dumps data)) as Hl.
      change (List.length (lit "Unexpected API response: ")) with 25. lia.
    + intros Hshort. unfold slice_to. now rewrite firstn_all2.
  - destruct (extract_text_inv _ _ He) as (T & Ht & _). now destruct (Hn T).
Qed.

(** A text that is a number. *)
Lemma generate_unusable_text_is_502_witness :
  exists detail,
    fst (run (generate_unit_tests (lit "URL")
                (answering 200 number_text_payload) scenario_request)) =
    inl (HTTPException 502 (JStr detail))
    /\ List.length detail <= 825
    /\ (List.length (json_dumps number_text_payload) <= 800 ->
        detail = lit "Unexpected API response: "
                 ++ json_dumps number_text_payload).
Proof.
  apply (generate_unusable_text_is_502 (lit "URL")
           (answering 200 number_text_payload) scenario_request
           {| status_code := 200; decoded := Some number_text_payload |}
           number_text_payload scenario_request_valid eq_refl eq_refl eq_refl).
  intros T; discriminate.
Defined.

(** X11. The extracted text is not checked after trimming: when the
    upstream's text is made of whitespace only, the handler still
    returns a response, with an empty [unit_tests]. *)
Theorem generate_blank_text url upstream payload r data T :
  valid payload ->
  upstream (generation_call url (prompt_of payload)) = inr r ->
  status_code r = 200%Z ->
  decoded r = Some data ->
  nested_text data = Some (JStr T) ->
  blank T = true ->
  fst (run (generate_unit_tests url upstream payload)) =
  inr {| UTGenerationResponse.unit_tests := [];
         UTGenerationResponse.pattern_used := strip (pattern_name payload);
         UTGenerationResponse.file_analyzed := strip (file_name payload) |}.
Proof.
  intros Hv Hu Hs Hd Ht Hb. unfold run.
  rewrite (generate_success _ _ _ _ r data Hv Hu Hd Hs).
  rewrite (extract_text_found _ _ Ht).
  apply strip_nil_iff in Hb. now rewrite Hb.
Qed.

(** A text of a space, a newline and a tab. *)
Lemma generate_blank_text_witness :
  fst (run (generate_unit_tests (lit "URL")
              (answering 200 blank_text_payload) scenario_request)) =
  inr {| UTGenerationResponse.unit_tests := [];
         UTGenerationResponse.pattern_used := lit "N";
         UTGenerationResponse.file_analyzed := lit "a.go" |}.
Proof.
  exact (generate_blank_text (lit "URL")
           (answering 200 blank_text_payload) scenario_request
           {| status_code := 200; decoded := Some blank_text_payload |}
           blank_text_payload [32; 10; 9]%N
           scenario_request_valid eq_refl eq_refl eq_refl eq_refl eq_refl).
Defined.

(** X12. Every field of a response is in trimmed form (trimming it again
    changes nothing), and [pattern_used] and [file_analyzed] are never
    empty. *)
Theorem generate_response_fields_trimmed url upstream payload resp :
  fst (run (generate_unit_tests url upstream payload)) = inr resp ->
  strip (UTGenerationResponse.unit_tests resp) =
    UTGenerationResponse.unit_tests resp
  /\ strip (UTGenerationResponse.pattern_used resp) =
       UTGenerationResponse.pattern_used resp
  /\ strip (UTGenerationResponse.file_analyzed resp) =
       UTGenerationResponse.file_analyzed resp
  /\ UTGenerationResponse.pattern_used resp <> []
  /\ UTGenerationResponse.file_analyzed resp <> [].
Proof.
  intros H.
  apply generate_success_inv in H
    as ((_ & _ & Hf & Hp) & r & data & T & _ & _ & _ & _ & ->).
  simpl. rewrite !strip_idem. repeat split; now apply blank_false_strip.
Qed.

(** The padded request, answered with a padded text. *)
Lemma generate_response_fields_trimmed_witness :
  exists resp,
    fst (run (generate_unit_tests (lit "URL")
                (answering 200 scenario_payload) padded_request)) = inr resp
    /\ strip (UTGenerationResponse.unit_tests resp) =
       UTGenerationResponse.unit_tests resp
    /\ strip (UTGenerationResponse.pattern_used resp) =
       UTGenerationResponse.pattern_used resp
    /\ strip (UTGenerationResponse.file_analyzed resp) =
       UTGenerationResponse.file_analyzed resp
    /\ UTGenerationResponse.pattern_used resp <> []
    /\ UTGenerationResponse.file_analyzed resp <> [].
Proof.
  eexists. split; [reflexivity|].
  exact (generate_response_fields_trimmed (lit "URL")
           (answering 200 scenario_payload) padded_request _ eq_refl).
Defined.

(** [upstream_message] raises nothing but [AttributeError]. *)
Lemma upstream_message_raises data e :
  upstream_message data = inl e -> e = AttributeError.
Proof.
  unfold upstream_message.
  destruct data; simpl; try (intros [= <-]; reflexivity).
  destruct (py_or _ _); simpl; try (intros [= <-]; reflexivity);
    discriminate.
Qed.

(** X13. The status a client gets from /generate-ut is 200, 400, 500 or
    502, or else the status of an upstream answer that was not 200;
    nothing else. *)
Theorem generate_status_codes url upstream payload :
  let status :=
    http_status (fst (run (generate_unit_tests url upstream payload))) in
  status = 200%Z \/ status = 400%Z \/ status = 500%Z \/ status = 502%Z
  \/ exists r,
       upstream (generation_call url (prompt_of payload)) = inr r
       /\ status_code r <> 200%Z
       /\ status = status_code r.
Proof.
  cbv zeta. unfold run.
  destruct (valid_or_blank payload) as [Hv|Hb].
  2:{ rewrite generate_invalid by assumption. simpl. tauto. }
  destruct (upstream (generation_call url (prompt_of payload)))
    as [e|r] eqn:Hu.
  { rewrite (generate_transport_failure _ _ _ _ e Hv Hu). simpl. tauto. }
  destruct (decoded r) as [data|] eqn:Hd.
  2:{ rewrite (generate_undecodable _ _ _ _ r Hv Hu Hd). simpl. tauto. }
  destruct (Z.eq_dec (status_code r) 200) as [Hs|Hs].
  - rewrite (generate_success _ _ _ _ r data Hv Hu Hd Hs).
    destruct (extract_text data); simpl; tauto.
  - rewrite (generate_non_success _ _ _ _ r data Hv Hu Hd Hs).
    destruct (upstream_message data) as [e|msg] eqn:Hm; simpl.
    + rewrite (upstream_message_raises _ _ Hm). simpl. tauto.
    + right; right; right; right. exists r. auto.
Qed.

(** ** The endpoints together *)

(** X14. /generate-ut does not ask for a Go file name: a valid request
    whose trimmed file name does not end with ".go", which /upload-source
    refuses with the same source and file name, still goes upstream. *)
Theorem generate_ignores_suffix url upstream payload :
  valid payload ->
  endswith (strip (file_name payload)) (lit ".go") = false ->
  upload_source
    {| SourceCodeUpload.source_code := source_code payload;
       SourceCodeUpload.file_name := file_name payload;
       SourceCodeUpload.package_name := None |} =
  inl (HTTPException 400 (JStr (lit "File must be a Go source file (.go)")))
  /\ snd (run (generate_unit_tests url upstream payload)) =
     [generation_call url (prompt_of payload)].
Proof.
  intros Hv He. split; [|now apply run_calls_once].
  destruct Hv as (_ & Hs & Hf & _).
  unfold upload_source. simpl. now rewrite !str_truthy_strip, Hs, Hf, He.
Qed.

(** The scenario request for [a.txt]. *)
Lemma generate_ignores_suffix_witness :
  upload_source (upload (lit "S") (lit "a.txt")) =
  inl (HTTPException 400 (JStr (lit "File must be a Go source file (.go)")))
  /\ snd (run (generate_unit_tests (lit "URL")
                 (answering 200 scenario_payload) txt_request)) =
     [generation_call (lit "URL") (prompt_of txt_request)].
Proof.
  apply (generate_ignores_suffix (lit "URL")
           (answering 200 scenario_payload) txt_request).
  - repeat split.
  - reflexivity.
Defined.

(** X15. The two endpoints normalise a file name alike: when
    /upload-source accepts a file name and /generate-ut answers a
    request with that same file name, [file_analyzed] is the file name
    /upload-source returned. *)
Theorem upload_then_generate_name url upstream uploaded res payload resp :
  upload_source uploaded = inr res ->
  file_name payload = SourceCodeUpload.file_name uploaded ->
  fst (run (generate_unit_tests url upstream payload)) = inr resp ->
  UTGenerationResponse.file_analyzed resp = UploadSourceResult.file_name res.
Proof.
  intros Hup Hname Hgen.
  apply upload_source_inv in Hup as (_ & _ & _ & ->).
  apply generate_success_inv in Hgen
    as (_ & r & data & T & _ & _ & _ & _ & ->).
  simpl. now rewrite Hname.
Qed.

(** The padded file name, uploaded and then analysed. *)
Lemma upload_then_generate_name_witness :
  exists res resp,
    upload_source (upload (lit "S") (lit " a.go ")) = inr res
    /\ fst (run (generate_unit_tests (lit "URL")
                   (answering 200 scenario_payload) padded_request)) = inr resp
    /\ UTGenerationResponse.file_analyzed resp =
       UploadSourceResult.file_name res.
Proof.
  eexists. eexists. split; [reflexivity|]. split; [reflexivity|].
  exact (upload_then_generate_name (lit "URL")
           (answering 200 scenario_payload)
           (upload (lit "S") (lit " a.go ")) _ padded_request _
           eq_refl eq_refl eq_refl).
Defined.

(** ** Start-up: properties *)

(** What a successful start-up has read. *)
Lemma startup_inv env settings :
  startup env = inr settings ->
  exists key,
    env (lit "GEMINI_API_KEY") = Some key /\ key <> []
    /\ settings =
       {| Settings.GEMINI_API_KEY := Some key;
          Settings.GEMINI_MODEL :=
            match env (lit "GEMINI_MODEL") with
            | Some model => model
            | None => lit "gemini-2.5-flash"
            end;
          Settings.GEMINI_URL :=
            lit "https://generativelanguage.googleapis.com/v1beta/models/"
            ++ match env (lit "GEMINI_MODEL") with
               | Some model => model
               | None => lit "gemini-2.5-flash"
               end
            ++ lit ":generateContent?key=" ++ key;
          Settings.ALLOWED_ORIGINS :=
            split 44%N
              match env (lit "ALLOWED_ORIGINS") with
              | Some origins => origins
              | None => lit "*"
              end |}.
Proof.
  unfold startup, getenv_default.
  destruct (env (lit "GEMINI_API_KEY")) as [[|c key]|]; simpl;
    try discriminate.
  intros [= <-]. exists (c :: key). repeat split. discriminate.
Qed.

(** X16. The service starts exactly when GEMINI_API_KEY is set to a
    non-empty value (which is not trimmed); it fails with the
    [RuntimeError] otherwise, a key set to the empty string included.
    The model defaults to "gemini-2.5-flash" only when GEMINI_MODEL is
    not set. *)
Theorem startup_requires_key env :
  (forall settings,
      startup env = inr settings <->
      exists key,
        env (lit "GEMINI_API_KEY") = Some key /\ key <> []
        /\ settings =
           {| Settings.GEMINI_API_KEY := Some key;
              Settings.GEMINI_MODEL :=
                match env (lit "GEMINI_MODEL") with
                | Some model => model
                | None => lit "gemini-2.5-flash"
                end;
              Settings.GEMINI_URL :=
                lit "https://generativelanguage.googleapis.com/v1beta/models/"
                ++ match env (lit "GEMINI_MODEL") with
                   | Some model => model
                   | None => lit "gemini-2.5-flash"
                   end
                ++ lit ":generateContent?key=" ++ key;
              Settings.ALLOWED_ORIGINS :=
                split 44%N
                  match env (lit "ALLOWED_ORIGINS") with
                  | Some origins => origins
                  | None => lit "*"
                  end |})
  /\
  (forall e,
      startup env = inl e <->
      (env (lit "GEMINI_API_KEY") = None
       \/ env (lit "GEMINI_API_KEY") = Some [])
      /\ e = RuntimeError (lit "Missing GEMINI_API_KEY environment variable")).
Proof.
  unfold startup, getenv_default.
  destruct (env (lit "GEMINI_API_KEY")) as [[|c key]|]; simpl; split.
  - intros settings. split; [discriminate|].
    intros (key & [= <-] & Hk & _). now destruct Hk.
  - intros e. split; [intros [= <-]; auto | intros (_ & ->); reflexivity].
  - intros settings. split.
    + intros [= <-]. exists (c :: key). repeat split. discriminate.
    + intros (key' & [= <-] & _ & ->). reflexivity.
  - intros e. split; [discriminate|].
    intros ([H|H] & _); discriminate.
  - intros settings. split; [discriminate|].
    intros (key & H & _). discriminate.
  - intros e. split; [intros [= <-]; auto | intros (_ & ->); reflexivity].
Qed.

(** X17. The allowed origins are the pieces of ALLOWED_ORIGINS (of "*"
    when it is not set) between its commas, as they are: there is one
    origin at least, one more than there are commas, no origin holds a
    comma, and joining them with commas gives the setting back, so
    whitespace around an origin stays in it. *)
Theorem startup_origins env settings :
  startup env = inr settings ->
  let raw := match env (lit "ALLOWED_ORIGINS") with
             | Some origins => origins
             | None => lit "*"
             end in
  Settings.ALLOWED_ORIGINS settings <> []
  /\ List.length (Settings.ALLOWED_ORIGINS settings) =
     S (count_occ N.eq_dec raw 44%N)
  /\ (forall origin,
         In origin (Settings.ALLOWED_ORIGINS settings) -> ~ In 44%N origin)
  /\ join [44%N] (Settings.ALLOWED_ORIGINS settings) = raw.
Proof.
  intros H. cbv zeta.
  apply startup_inv in H as (key & _ & _ & ->). simpl.
  repeat split.
  - destruct (split_cons 44%N
                match env (lit "ALLOWED_ORIGINS") with
                | Some origins => origins
                | None => lit "*"
                end) as (p & ps & ->). discriminate.
  - apply split_length.
  - intros origin. apply split_no_sep.
  - apply split_join.
Qed.

(** Two origins with a space after the comma: the space stays. *)
Lemma startup_origins_witness :
  [lit "https://a.example"; lit " https://b.example"] <> []
  /\ List.length [lit "https://a.example"; lit " https://b.example"] =
     S (count_occ N.eq_dec (lit "https://a.example, https://b.example") 44%N)
  /\ (forall origin,
         In origin [lit "https://a.example"; lit " https://b.example"] ->
         ~ In 44%N origin)
  /\ join [44%N] [lit "https://a.example"; lit " https://b.example"] =
     lit "https://a.example, https://b.example".
Proof.
  exact (startup_origins example_environ
           {| Settings.GEMINI_API_KEY := Some (lit "k3y");
              Settings.GEMINI_MODEL := lit "gemini-2.5-flash";
              Settings.GEMINI_URL :=
                lit "https://generativelanguage.googleapis.com/v1beta/models/gemini-2.5-flash:generateContent?key=k3y";
              Settings.ALLOWED_ORIGINS :=
                [lit "https://a.example"; lit " https://b.example"] |}
           eq_refl).
Defined.

(** X18. After a successful start-up, every outbound call of
    /generate-ut goes to the configured URL, and that URL ends with the
    API key as it was read from the environment: the key travels in the
    query string of each call. *)
Theorem startup_key_in_call_url env settings :
  startup env = inr settings ->
  exists key,
    env (lit "GEMINI_API_KEY") = Some key /\ key <> []
    /\ forall upstream payload call,
        In call (snd (run (generate_unit_tests
                             (Settings.GEMINI_URL settings) upstream payload))) ->
        call_url call = Settings.GEMINI_URL settings
        /\ endswith (call_url call) key = true.
Proof.
  intros H. apply startup_inv in H as (key & Hk & Hne & ->).
  exists key. repeat split; try assumption.
  - destruct (valid_or_blank payload) as [Hv|Hb].
    + rewrite run_calls_once in H by assumption.
      destruct H as [<-|[]]. reflexivity.
    + unfold run in H. rewrite generate_invalid in H by assumption.
      destruct H.
  - destruct (valid_or_blank payload) as [Hv|Hb].
    + rewrite run_calls_once in H by assumption.
      destruct H as [<-|[]].
      cbn [call_url generation_call Settings.GEMINI_URL].
      rewrite !app_assoc. apply endswith_app.
    + unfold run in H. rewrite generate_invalid in H by assumption.
      destruct H.
Qed.

(** The example environment and the scenario request. *)
Lemma startup_key_in_call_url_witness :
  exists key,
    example_environ (lit "GEMINI_API_KEY") = Some key /\ key <> []
    /\ forall upstream payload call,
        In call (snd (run (generate_unit_tests
                             (lit "https://generativelanguage.googleapis.com/v1beta/models/gemini-2.5-flash:generateContent?key=k3y")
                             upstream payload))) ->
        call_url call =
        lit "https://generativelanguage.googleapis.com/v1beta/models/gemini-2.5-flash:generateContent?key=k3y"
        /\ endswith (call_url call) key = true.
Proof.
  exact (startup_key_in_call_url example_environ
           {| Settings.GEMINI_API_KEY := Some (lit "k3y");
              Settings.GEMINI_MODEL := lit "gemini-2.5-flash";
              Settings.GEMINI_URL :=
                lit "https://generativelanguage.googleapis.com/v1beta/models/gemini-2.5-flash:generateContent?key=k3y";
              Settings.ALLOWED_ORIGINS :=
                [lit "https://a.example"; lit " https://b.example"] |}
           eq_refl).
Defined.

(** ** The timeout of the outbound call *)


